(** * CodeGraphContext: remote FalkorDB connection manager and indexing handlers

    A shallow embedding of
    - [src/codegraphcontext/core/database_falkordb_remote.py]
      (class [FalkorDBRemoteManager]) and
    - [src/codegraphcontext/tools/handlers/indexing_handlers.py]
      ([index_repository], [add_code_to_graph], [add_package_to_graph]),
    followed by the properties of the specification, stated over it.

    Conventions of the embedding.
    - A Python [str] is a [string]; a character is a code point below 256.
    - A Python [dict] with string keys is a [gmap string _].
    - Python exceptions are values of [exn]; only classes deriving from
      [Exception] are represented ([KeyboardInterrupt], [SystemExit] and
      [GeneratorExit] are outside the model).
    - Code that can raise returns a [result]; code that also talks to a
      collaborator threads a state through the monad [M].
    - Thread synchronisation ([threading.Lock]) is not represented: every
      function is modelled as run by one thread at a time. *)

From Stdlib Require Import ZArith Ascii String List Lia.
From stdpp Require Import base option list gmap strings pretty.
From Equations Require Import Equations.

Open Scope string_scope.
Open Scope Z_scope.

Set Warnings "-clear-no-such-hyp".

(* ===================================================================== *)
(** * Part I: definitions *)
(* ===================================================================== *)

(** ** Python values, exceptions and results

    A [float] is carried as its IEEE-754 binary64 bit pattern; arithmetic
    on it is left to the platform (see [Platform] below). Tuples are
    carried as lists. *)

#[warnings="-register-all"]
Inductive value : Type :=
| VNone
| VBool (b : bool)
| VInt (z : Z)
| VStr (s : string)
| VFloat (bits : Z)
| VList (l : list value)
| VDict (d : gmap string value).

(** The exception classes the two modules can meet. [ModuleNotFoundError]
    derives from [ImportError]; [ConnectionError] derives from [OSError]. *)
Inductive exn_class : Type :=
| ImportError
| ModuleNotFoundError
| ValueError
| TypeError
| KeyError
| AttributeError
| OSError
| ConnectionError
| RuntimeError
| TimeoutExpired
| OtherException (name : string).

Record exn : Type := Exn { exn_cls : exn_class; exn_str : string }.

(** [isinstance(e, ImportError)] *)
Definition is_ImportError (e : exn) : bool :=
  match exn_cls e with
  | ImportError | ModuleNotFoundError => true
  | _ => false
  end.

(** [isinstance(e, subprocess.TimeoutExpired)] *)
Definition is_TimeoutExpired (e : exn) : bool :=
  match exn_cls e with
  | TimeoutExpired => true
  | _ => false
  end.

Inductive result (A : Type) : Type :=
| Ok (a : A)
| Raise (e : exn).
Arguments Ok {A} a.
Arguments Raise {A} e.

(** ** The state-and-exception monad

    [M S A] is a computation over a state [S] that returns an [A] or
    raises. A raised exception keeps the state reached so far: Python
    does not roll back assignments made inside a [try] block. *)

Definition M (S A : Type) : Type := S -> result A * S.

Definition ret {S A} (a : A) : M S A := fun s => (Ok a, s).

Definition raise {S A} (e : exn) : M S A := fun s => (Raise e, s).

Definition bind {S A B} (m : M S A) (k : A -> M S B) : M S B :=
  fun s =>
    match m s with
    | (Ok a, s') => k a s'
    | (Raise e, s') => (Raise e, s')
    end.

(** [try: body  except Exception as e: handler e] *)
Definition try_except {S A} (body : M S A) (handler : exn -> M S A) : M S A :=
  fun s =>
    match body s with
    | (Ok a, s') => (Ok a, s')
    | (Raise e, s') => handler e s'
    end.

Definition get {S} : M S S := fun s => (Ok s, s).
Definition modify {S} (f : S -> S) : M S unit := fun s => (Ok tt, f s).
Definition lift_result {S A} (r : result A) : M S A := fun s => (r, s).

#[global] Instance M_ret {S} : MRet (M S) := fun A a => ret a.
#[global] Instance M_bind {S} : MBind (M S) := fun A B k m => bind m k.

(** ** Python string operations *)

Definition chars (s : string) : list ascii := list_ascii_of_string s.
Definition str (l : list ascii) : string := string_of_list_ascii l.

(** [str.isspace] on one code point below 256: TAB..CR, FS..US, SPACE,
    NEL and NBSP. *)
Definition is_space (c : ascii) : bool :=
  let n := nat_of_ascii c in
  ((9 <=? n) && (n <=? 13) || (28 <=? n) && (n <=? 32)
   || (n =? 133) || (n =? 160))%nat.

Fixpoint lstrip_chars (l : list ascii) : list ascii :=
  match l with
  | c :: l' => if is_space c then lstrip_chars l' else l
  | [] => []
  end.

Definition rstrip_chars (l : list ascii) : list ascii :=
  rev (lstrip_chars (rev l)).

(** [s.strip()] *)
Definition py_strip (s : string) : string :=
  str (rstrip_chars (lstrip_chars (chars s))).

Fixpoint is_prefix (p l : list ascii) : bool :=
  match p, l with
  | [], _ => true
  | a :: p', b :: l' => if Ascii.eqb a b then is_prefix p' l' else false
  | _ :: _, [] => false
  end.

(** [s.replace(old, new)] for a non-empty [old]: scan from the left; at an
    occurrence of [old] emit [new] and continue after the occurrence,
    otherwise copy one character. *)
Equations? replace_chars (old new l : list ascii) : list ascii
  by wf (length l) lt :=
  replace_chars old new [] := [];
  replace_chars old new (c :: l') with is_prefix old (c :: l') => {
    | true := new ++ replace_chars old new (drop (pred (length old)) l');
    | false := c :: replace_chars old new l' }.
Proof.
  all: simpl; try lia.
  rewrite length_drop. lia.
Qed.

(** With an empty [old], Python inserts [new] before every character and
    at the end. *)
Fixpoint intersperse_chars (new l : list ascii) : list ascii :=
  match l with
  | [] => new
  | c :: l' => new ++ c :: intersperse_chars new l'
  end.

(** [s.replace(old, new)] *)
Definition py_replace (s old new : string) : string :=
  match chars old with
  | [] => str (intersperse_chars (chars new) (chars s))
  | _ :: _ => str (replace_chars (chars old) (chars new) (chars s))
  end.

(** The redaction marker of [index_repository] is three asterisks. *)
Definition star : ascii := "*"%char.
Definition stars : list ascii := [star; star; star].

(** [needle in s] *)
Fixpoint occurs_chars (p l : list ascii) : bool :=
  is_prefix p l ||
  match l with
  | [] => false
  | _ :: l' => occurs_chars p l'
  end.

Definition py_in (needle s : string) : bool :=
  occurs_chars (chars needle) (chars s).

(** [s.endswith(suffix)] *)
Definition py_endswith (s suffix : string) : bool :=
  is_prefix (rev (chars suffix)) (rev (chars s)).

(** [s.lower()] on code points below 256: A..Z and the Latin-1 capitals
    (192..222 except the multiplication sign 215) move up by 32. *)
Definition lower_char (c : ascii) : ascii :=
  let n := nat_of_ascii c in
  if ((65 <=? n) && (n <=? 90)
      || (192 <=? n) && (n <=? 222) && negb (n =? 215))%nat
  then ascii_of_nat (n + 32) else c.

Definition py_lower (s : string) : string := str (map lower_char (chars s)).

(** [str(b)] for a [bool] *)
Definition py_str_bool (b : bool) : string := if b then "True" else "False".

(** [str(n)] for an [int] *)
Definition py_str_int (n : Z) : string := pretty n.

(** ** [int(s)] for a string, base 10

    As CPython 3.11 converts a [str] ([PyLong_FromUnicodeObject] and
    [PyLong_FromString]), with the interpreter's default settings.
    Whitespace around the number is skipped; it is the whitespace of C
    (TAB..CR and SPACE) and, among the code points from 127 on, NEL and
    NBSP: the separators FS..US, which [str.strip] removes, are not
    accepted. One sign may come first. The digits may be grouped by single
    underscores, neither leading nor trailing. A text with more than 4300
    digits is refused ([sys.set_int_max_str_digits]) once its digits have
    been scanned, whatever follows them. Everything else is an invalid
    literal. All failures are [ValueError]s. *)

Definition is_digit (c : ascii) : bool :=
  let n := nat_of_ascii c in ((48 <=? n) && (n <=? 57))%nat.

Definition digit_value (c : ascii) : Z := Z.of_nat (nat_of_ascii c) - 48.

Definition is_int_space (c : ascii) : bool :=
  let n := nat_of_ascii c in
  ((9 <=? n) && (n <=? 13) || (n =? 32) || (n =? 133) || (n =? 160))%nat.

Fixpoint lstrip_int_space (l : list ascii) : list ascii :=
  match l with
  | c :: l' => if is_int_space c then lstrip_int_space l' else l
  | [] => []
  end.

(** The scan of the digits: the value and the number of digits read, and
    what follows them; [None] on two underscores in a row and on an
    underscore that ends the digits. *)
Fixpoint scan_digits (acc digits : Z) (after_underscore : bool) (l : list ascii)
  : option (Z * Z * list ascii) :=
  match l with
  | [] => if after_underscore then None else Some (acc, digits, [])
  | c :: l' =>
      if is_digit c then scan_digits (acc * 10 + digit_value c) (digits + 1) false l'
      else if Ascii.eqb c "_"
           then (if after_underscore then None else scan_digits acc digits true l')
           else (if after_underscore then None else Some (acc, digits, l))
  end.

Inductive int_outcome : Type :=
| IntValue (n : Z)
| IntInvalid
| IntTooLong (digits : Z).

Definition max_str_digits : Z := 4300.

Definition int_outcome_chars (l : list ascii) : int_outcome :=
  let l1 := lstrip_int_space l in
  let '(negative, l2) :=
    match l1 with
    | "-"%char :: r => (true, r)
    | "+"%char :: r => (false, r)
    | _ => (false, l1)
    end in
  match l2 with
  | "_"%char :: _ => IntInvalid
  | _ =>
      match scan_digits 0 0 false l2 with
      | None => IntInvalid
      | Some (acc, digits, rest) =>
          if max_str_digits <? digits then IntTooLong digits
          else if digits =? 0 then IntInvalid
          else if forallb is_int_space rest
               then IntValue (if negative : bool then - acc else acc)
               else IntInvalid
      end
  end.

Definition parse_int_chars (l : list ascii) : option Z :=
  match int_outcome_chars l with
  | IntValue n => Some n
  | _ => None
  end.

(** [repr(s)] for a string: between single quotes, or between double
    quotes when the text holds a single quote and no double quote; the
    quote in use and the backslash are escaped, TAB, LF and CR are
    written [\t], [\n], [\r], and the other code points that are not
    printable (below 32, from 127 to 160, and 173) are written [\xhh]. *)

Definition single_quote : ascii := ascii_of_nat 39.
Definition double_quote : ascii := ascii_of_nat 34.
Definition backslash : ascii := ascii_of_nat 92.

Definition hex_digit (n : nat) : ascii :=
  nth n (chars "0123456789abcdef") "0"%char.

Definition repr_char (quote c : ascii) : list ascii :=
  let n := nat_of_ascii c in
  if Ascii.eqb c quote || Ascii.eqb c backslash then [backslash; c]
  else if (n =? 9)%nat then [backslash; "t"%char]
  else if (n =? 10)%nat then [backslash; "n"%char]
  else if (n =? 13)%nat then [backslash; "r"%char]
  else if ((n <? 32) || (127 <=? n) && (n <=? 160) || (n =? 173))%nat
       then [backslash; "x"%char; hex_digit (n / 16); hex_digit (n mod 16)]
  else [c].

Definition repr_chars (l : list ascii) : list ascii :=
  let quote :=
    if existsb (Ascii.eqb single_quote) l && negb (existsb (Ascii.eqb double_quote) l)
    then double_quote else single_quote in
  quote :: flat_map (repr_char quote) l ++ [quote].

Definition py_repr (s : string) : string := str (repr_chars (chars s)).

(** The exception of a failed conversion. The invalid literal is shown
    with [%.200R]: the first 200 characters of its [repr]. *)
Definition int_ValueError (s : string) : exn :=
  Exn ValueError
    match int_outcome_chars (chars s) with
    | IntTooLong digits =>
        "Exceeds the limit (4300 digits) for integer string conversion: value has "
        ++ py_str_int digits
        ++ " digits; use sys.set_int_max_str_digits() to increase the limit"
    | _ =>
        "invalid literal for int() with base 10: "
        ++ str (take 200 (repr_chars (chars s)))
    end.

Definition py_int (s : string) : result Z :=
  match parse_int_chars (chars s) with
  | Some n => Ok n
  | None => Raise (int_ValueError s)
  end.

(** ** The process environment *)

(** [os.getenv(key)] is [env !! key]; [os.getenv(key, default)]: *)
Definition getenv_default (env : gmap string string) (key dflt : string) : string :=
  match env !! key with
  | Some v => v
  | None => dflt
  end.

(* ===================================================================== *)
(** ** [database_falkordb_remote.py] *)
(* ===================================================================== *)

(** The [falkordb] client library, as the manager uses it. [W] is the
    state of the outside world (the network, the server, the installed
    packages); every operation may change it and may raise. *)
Class FalkorDBClient (W Driver Graph : Type) : Type := {
  (** [from falkordb import FalkorDB] *)
  import_falkordb : W -> result unit * W;
  (** the constructor [FalkorDB], called with the keyword arguments [kwargs] *)
  FalkorDB : gmap string value -> W -> result Driver * W;
  (** [driver.select_graph(name)] *)
  select_graph : Driver -> string -> W -> result Graph * W;
  (** [graph.query(q)] *)
  query : Graph -> string -> W -> result unit * W
}.

(** What the manager does to the outside, in order. *)
Inductive event : Type :=
| EImport
| EConstruct (kwargs : gmap string value)
| ESelectGraph (name : string)
| EQuery (q : string)
| EInfoLog (msg : string)
| EErrorLog (msg : string).

(** Modelled from the spec: [FalkorDBDriverWrapper] of
    [codegraphcontext/core/database_falkordb.py], which is not part of the
    sources at hand; the spec calls it a lightweight adapter wrapping the
    cached graph. It is taken to store the graph it is given. *)
Record FalkorDBDriverWrapper (Graph : Type) : Type :=
  Wrapper { wrapped_graph : option Graph }.
Arguments Wrapper {Graph} _.
Arguments wrapped_graph {Graph} _.

(** The attributes [__init__] assigns after the host. *)
Record settings : Type := Settings {
  port : Z;
  password : option string;
  username : option string;
  ssl : bool;
  graph_name : string
}.

(** The singleton object. [host] is assigned first (line 55); the
    conversion of the port on the next line may raise, so that the other
    attributes are either all assigned or all missing. [_driver] and
    [_graph] default to the class attributes, which are [None]. *)
Record instance (Driver Graph : Type) : Type := Instance_ {
  host : option string;
  config : option settings;
  _initialized : bool;
  _driver : option Driver;
  _graph : option Graph
}.
Arguments Instance_ {Driver Graph} _ _ _ _ _.
Arguments host {Driver Graph} _.
Arguments config {Driver Graph} _.
Arguments _initialized {Driver Graph} _.
Arguments _driver {Driver Graph} _.
Arguments _graph {Driver Graph} _.

(** [x or None] for a string that may be missing *)
Definition or_None (x : option string) : option string :=
  match x with
  | Some "" => None
  | other => other
  end.

(** [x in ('true', '1', 'yes')] *)
Definition in_truthy_words (x : string) : bool :=
  bool_decide (x ∈ ["true"; "1"; "yes"]).

(** The class-level state: [cls._instance] and the number of handlers
    registered with [atexit]. *)
Record class_state (Driver Graph : Type) : Type := ClassState {
  _instance : option (instance Driver Graph);
  atexit_registered : nat
}.
Arguments ClassState {Driver Graph} _ _.
Arguments _instance {Driver Graph} _.
Arguments atexit_registered {Driver Graph} _.

(** The keyword arguments of the constructor calls in a trace. *)
Fixpoint construct_calls (t : list event) : list (gmap string value) :=
  match t with
  | [] => []
  | EConstruct kwargs :: t' => kwargs :: construct_calls t'
  | _ :: t' => construct_calls t'
  end.

Section Manager.
Context {W Driver Graph : Type} {client : FalkorDBClient W Driver Graph}.

#[local] Abbreviation instance := (instance Driver Graph).
#[local] Abbreviation class_state := (class_state Driver Graph).

(** [__new__]: the object all constructions share. *)
Definition new (cls : class_state) : instance * class_state :=
  match _instance cls with
  | Some self => (self, cls)
  | None =>
      let self := Instance_ None None false None None in
      (self, ClassState (Some self) (atexit_registered cls))
  end.

(** [__init__], on the attributes of [self]; the second component says
    whether [atexit.register] was reached. *)
Definition init (env : gmap string string) (self : instance)
  : result unit * instance * bool :=
  if _initialized self then (Ok tt, self, false)
  else
    let self1 := Instance_ (Some (getenv_default env "FALKORDB_HOST" "localhost"))
                           (config self) false (_driver self) (_graph self) in
    match py_int (getenv_default env "FALKORDB_PORT" "6379") with
    | Raise e => (Raise e, self1, false)
    | Ok p =>
        let cfg :=
          Settings p
            (or_None (env !! "FALKORDB_PASSWORD"))
            (or_None (env !! "FALKORDB_USERNAME"))
            (in_truthy_words (py_lower (getenv_default env "FALKORDB_SSL" "false")))
            (getenv_default env "FALKORDB_GRAPH_NAME" "codegraph") in
        (Ok tt, Instance_ (host self1) (Some cfg) true (_driver self) (_graph self), true)
    end.

(** [FalkorDBRemoteManager()]: [__new__], then [__init__] on its result.
    The object lives in [cls._instance], so that the attributes
    [__init__] assigned before raising stay on it. *)
Definition FalkorDBRemoteManager (env : gmap string string) (cls : class_state)
  : result instance * class_state :=
  let '(self, cls1) := new cls in
  let '(r, self', registered) := init env self in
  let cls2 := ClassState (Some self')
                (if registered then S (atexit_registered cls1)
                 else atexit_registered cls1) in
  match r with
  | Ok _ => (Ok self', cls2)
  | Raise e => (Raise e, cls2)
  end.

(** The state the methods run in: the object, the outside world and the
    record of what was done to it. *)
Record state : Type := State {
  self : instance;
  world : W;
  trace : list event
}.

Definition emit (e : event) : M state unit :=
  modify (fun s => State (self s) (world s) (trace s ++ [e])).

(** A call to the client library, recorded in the trace. *)
Definition call {A} (e : event) (f : W -> result A * W) : M state A :=
  fun s =>
    let '(r, w) := f (world s) in
    (r, State (self s) w (trace s ++ [e])).

Definition set_driver (d : option Driver) : M state unit :=
  modify (fun s =>
    State (Instance_ (host (self s)) (config (self s)) (_initialized (self s))
                     d (_graph (self s)))
          (world s) (trace s)).

Definition set_graph (g : option Graph) : M state unit :=
  modify (fun s =>
    State (Instance_ (host (self s)) (config (self s)) (_initialized (self s))
                     (_driver (self s)) g)
          (world s) (trace s)).

(** Reading an attribute that [__init__] has not assigned raises
    [AttributeError]. *)
Definition attr {A} (name : string) (x : option A) : M state A :=
  match x with
  | Some a => mret a
  | None =>
      raise (Exn AttributeError
               ("'FalkorDBRemoteManager' object has no attribute '" ++ name ++ "'"))
  end.

(** The keyword arguments of lines 84-93; lines 184-190 of
    [test_connection] build theirs in the same way. *)
Definition get_driver_kwargs (h : string) (cfg : settings) : gmap string value :=
  let kwargs : gmap string value :=
    <["port" := VInt (port cfg)]> (<["host" := VStr h]> ∅) in
  let kwargs :=
    match password cfg with
    | Some (String _ _ as p) => <["password" := VStr p]> kwargs
    | _ => kwargs
    end in
  let kwargs :=
    match username cfg with
    | Some (String _ _ as u) => <["username" := VStr u]> kwargs
    | _ => kwargs
    end in
  if ssl cfg then <["ssl" := VBool true]> kwargs else kwargs.

(** The body of the [try] block of [get_driver]. *)
Definition connect : M state unit :=
  call EImport import_falkordb ;;
  s ← get ;
  h ← attr "host" (host (self s)) ;
  cfg ← attr "port" (config (self s)) ;
  emit (EInfoLog ("Connecting to remote FalkorDB at " ++ h ++ ":"
                  ++ py_str_int (port cfg) ++ " (ssl=" ++ py_str_bool (ssl cfg) ++ ")")) ;;
  let kwargs := get_driver_kwargs h cfg in
  d ← call (EConstruct kwargs) (FalkorDB kwargs) ;
  set_driver (Some d) ;;
  g ← call (ESelectGraph (graph_name cfg)) (select_graph d (graph_name cfg)) ;
  set_graph (Some g) ;;
  call (EQuery "RETURN 1") (query g "RETURN 1") ;;
  emit (EInfoLog "Remote FalkorDB connection established successfully") ;;
  emit (EInfoLog ("Graph name: " ++ graph_name cfg)).

(** [get_driver] *)
Definition get_driver : M state (FalkorDBDriverWrapper Graph) :=
  s ← get ;
  (match _driver (self s) with
   | None =>
       try_except connect (fun e =>
         if is_ImportError e then
           emit (EErrorLog "FalkorDB client is not installed. Install it with:
  pip install falkordb") ;;
           raise (Exn ValueError "FalkorDB client missing.")
         else
           emit (EErrorLog ("Failed to connect to remote FalkorDB: " ++ exn_str e)) ;;
           raise e)
   | Some _ => mret tt
   end) ;;
  s' ← get ;
  mret (Wrapper (_graph (self s'))).

(** [close_driver] *)
Definition close_driver : M state unit :=
  set_driver None ;; set_graph None.

(** [shutdown] *)
Definition shutdown : M state unit := close_driver.

(** [is_connected] *)
Definition is_connected : M state bool :=
  s ← get ;
  match _graph (self s) with
  | None => mret false
  | Some g =>
      try_except
        (call (EQuery "RETURN 1") (query g "RETURN 1") ;; mret true)
        (fun _ => mret false)
  end.

(** [test_connection]: static; it reads the environment again and
    leaves the cached handles alone. The conversion of the port is
    outside both [try] blocks. *)
Definition test_connection (env : gmap string string)
  : M state (bool * option string) :=
  imported ← try_except (call EImport import_falkordb ;; mret true)
               (fun e => if is_ImportError e then mret false else raise e) ;
  if negb imported then
    mret (false, Some "FalkorDB client is not installed.
Install it with: pip install falkordb")
  else
    match env !! "FALKORDB_HOST" with
    | None | Some "" => mret (false, Some "FALKORDB_HOST is not set.")
    | Some (String _ _ as h) =>
        p ← lift_result (py_int (getenv_default env "FALKORDB_PORT" "6379")) ;
        let cfg :=
          Settings p
            (or_None (env !! "FALKORDB_PASSWORD"))
            (or_None (env !! "FALKORDB_USERNAME"))
            (in_truthy_words (py_lower (getenv_default env "FALKORDB_SSL" "false")))
            (getenv_default env "FALKORDB_GRAPH_NAME" "codegraph") in
        try_except
          (let kwargs := get_driver_kwargs h cfg in
           db ← call (EConstruct kwargs) (FalkorDB kwargs) ;
           graph ← call (ESelectGraph (graph_name cfg))
                        (select_graph db (graph_name cfg)) ;
           call (EQuery "RETURN 1") (query graph "RETURN 1") ;;
           mret (true, None))
          (fun e => mret (false, Some ("Connection failed: " ++ exn_str e)))
    end.

(** [get_backend_type] *)
Definition get_backend_type : string := "falkordb-remote".

End Manager.

(** [validate_config] reads the environment and nothing else. *)
Definition validate_config (env : gmap string string) : bool * option string :=
  match env !! "FALKORDB_HOST" with
  | None | Some "" => (false, Some "FALKORDB_HOST environment variable is not set.")
  | Some (String _ _) =>
      let port_str := getenv_default env "FALKORDB_PORT" "6379" in
      match parse_int_chars (chars port_str) with
      | Some port =>
          if negb ((1 <=? port) && (port <=? 65535))
          then (false, Some ("FALKORDB_PORT must be between 1 and 65535, got "
                             ++ py_str_int port ++ "."))
          else (true, None)
      | None =>
          (* [except ValueError]: the only exception [int] raises on a string *)
          (false, Some ("FALKORDB_PORT must be a number, got '" ++ port_str ++ "'."))
      end
  end.

(* ===================================================================== *)
(** ** [indexing_handlers.py] *)
(* ===================================================================== *)

(** *** Dynamic operations on values *)

(** [bool(v)] *)
Definition py_truthy (v : value) : bool :=
  match v with
  | VNone => false
  | VBool b => b
  | VInt z => negb (z =? 0)
  | VStr s => negb (String.eqb s "")
  | VFloat bits => negb ((bits =? 0) || (bits =? 2 ^ 63))
  | VList l => match l with [] => false | _ => true end
  | VDict d => negb (bool_decide (dom d = ∅))
  end.

Definition AttributeError_get : exn :=
  Exn AttributeError "object has no attribute 'get'".

(** [v.get(key)] and [v.get(key, dflt)] *)
Definition py_get (v : value) (key : string) (dflt : value) : result value :=
  match v with
  | VDict d => Ok (match d !! key with Some x => x | None => dflt end)
  | _ => Raise AttributeError_get
  end.

(** [v[key]] for a string [key] *)
Definition py_getitem (v : value) (key : string) : result value :=
  match v with
  | VDict d =>
      match d !! key with
      | Some x => Ok x
      | None => Raise (Exn KeyError ("'" ++ key ++ "'"))
      end
  | VStr _ => Raise (Exn TypeError "string indices must be integers")
  | VList _ => Raise (Exn TypeError "list indices must be integers or slices, not str")
  | _ => Raise (Exn TypeError "object is not subscriptable")
  end.

(** The elements a [for] loop over [v] visits. *)
Definition py_iter (v : value) : result (list value) :=
  match v with
  | VList l => Ok l
  | VStr s => Ok ((fun c => VStr (String c "")) <$> chars s)
  | VDict d => Ok (VStr <$> (map_to_list d).*1)
  | _ => Raise (Exn TypeError "object is not iterable")
  end.

(** [Path(v)]: a path is kept as the string it prints as. *)
Definition Path (v : value) : result string :=
  match v with
  | VStr s => Ok s
  | _ => Raise (Exn TypeError "expected str, bytes or os.PathLike object")
  end.

(** [v == p] where [p] is a string or [None] *)
Definition eq_opt_str (v : value) (p : option string) : bool :=
  match v, p with
  | VNone, None => true
  | VStr s, Some t => String.eqb s t
  | _, _ => false
  end.

(** [f"{p}"] where [p] is a string or [None] *)
Definition fmt_opt_str (p : option string) : string :=
  match p with
  | Some s => s
  | None => "None"
  end.

(** [a, b = v] *)
Definition unpack2 (v : value) : result (value * value) :=
  match v with
  | VList [a; b] => Ok (a, b)
  | VList _ => Raise (Exn ValueError "wrong number of values to unpack")
  | _ => Raise (Exn TypeError "cannot unpack non-iterable object")
  end.

(** *** Deriving the repository name (lines 25-27) *)

Fixpoint lstrip_char (c : ascii) (l : list ascii) : list ascii :=
  match l with
  | x :: l' => if Ascii.eqb x c then lstrip_char c l' else l
  | [] => []
  end.

(** [s.rstrip("/")] *)
Definition rstrip_slash (s : string) : string :=
  str (rev (lstrip_char "/" (rev (chars s)))).

(** [s.split("/")[-1]]: what follows the last slash. *)
Fixpoint last_segment_chars (acc l : list ascii) : list ascii :=
  match l with
  | [] => acc
  | c :: l' =>
      if Ascii.eqb c "/" then last_segment_chars [] l'
      else last_segment_chars (acc ++ [c]) l'
  end.

Definition last_segment (s : string) : string :=
  str (last_segment_chars [] (chars s)).

(** [s[:-4]] *)
Definition drop_last4 (s : string) : string :=
  let l := chars s in str (take (length l - 4) l).

Definition derive_repo_name (url_path : string) : string :=
  let repo_name := last_segment (rstrip_slash url_path) in
  if py_endswith repo_name ".git" then drop_last4 repo_name else repo_name.

(** [Path("/workspace") / name], as it prints; [name] holds no slash, and
    a ["."] component is dropped by [pathlib]. *)
Definition workspace_path (name : string) : string :=
  if String.eqb name "." then "/workspace" else "/workspace/" ++ name.

(** *** Collaborators *)

(** What [urlparse] returns, as far as [index_repository] reads it.
    Reading [.port] raises [ValueError] on a malformed port. *)
Record parsed_url : Type := ParsedUrl {
  scheme : string;
  hostname : option string;
  url_port : result (option Z);
  url_path : string
}.

(** [subprocess.CompletedProcess] *)
Record completed_process : Type := CompletedProcess {
  returncode : Z;
  stderr : string
}.

(** The four parameters every handler receives ([graph_builder],
    [job_manager], [loop], [list_repos_func]) and the package resolver the
    module imports. [W] is the state of everything outside the handler. *)
Class Collaborators (W Coro : Type) : Type := {
  list_repos_func : W -> result value * W;
  estimate_processing_time : string -> W -> result value * W;
  build_graph_from_path_async : string -> bool -> string -> W -> result Coro * W;
  create_job : string -> bool -> W -> result string * W;
  update_job : string -> value -> value -> W -> result unit * W;
  (** [asyncio.run_coroutine_threadsafe(coro, loop)] *)
  run_coroutine_threadsafe : Coro -> W -> result unit * W;
  get_local_package_path : option string -> string -> W -> result (option string) * W
}.

(** The standard library and the operating system. *)
Class Platform (W : Type) : Type := {
  urlparse : string -> result parsed_url;
  (** [Path(p).resolve()] *)
  path_resolve : string -> W -> result string;
  (** [p.exists()] *)
  path_exists : string -> W -> result bool;
  (** [os.path.exists(p)] *)
  os_path_exists : string -> W -> bool;
  (** [subprocess.run(argv, capture_output=True, text=True, timeout=300)] *)
  subprocess_run : list string -> W -> result completed_process * W;
  (** [round(v, 2)], [v >= 60], [int(v // 60)], [int(v % 60)], [int(v)] *)
  round2 : value -> result value;
  ge60 : value -> result bool;
  int_floordiv60 : value -> result Z;
  int_mod60 : value -> result Z;
  int_of : value -> result Z
}.

(** The calls a handler makes, in order. *)
Inductive hcall : Type :=
| CListRepos
| CEstimate (path : string)
| CCreateJob (path : string) (is_dependency : bool)
| CUpdateJob (job_id : string) (total_files estimated_duration : value)
| CBuildCoroutine (path : string) (is_dependency : bool) (job_id : string)
| CSubmit
| CLocatePackage (package_name : option string) (language : string)
| CSubprocessRun (argv : list string)
| CDebugLog (msg : string).

Record index_repository_args : Type := IndexRepositoryArgs {
  arg_url : option string;
  arg_branch : option string;
  arg_repo_is_dependency : option bool
}.

Record add_code_args : Type := AddCodeArgs {
  arg_path : option string;
  arg_code_is_dependency : option bool
}.

Record add_package_args : Type := AddPackageArgs {
  arg_package_name : option string;
  arg_language : option string;
  arg_package_is_dependency : option bool
}.

(** [Path(path)] for an argument that may be missing *)
Definition Path_of_arg (p : option string) : result string :=
  match p with
  | Some s => Ok s
  | None => Path VNone
  end.

Section Handlers.
Context {W Coro : Type} {collab : Collaborators W Coro} {platform : Platform W}.

Record hstate : Type := HState {
  hworld : W;
  calls : list hcall
}.

(** A call that may change the world. *)
Definition hcall_rw {A} (c : hcall) (f : W -> result A * W) : M hstate A :=
  fun s =>
    let '(r, w) := f (hworld s) in
    (r, HState w (calls s ++ [c])).

(** A query of the file system; it is not recorded. *)
Definition hquery {A} (f : W -> result A) : M hstate A :=
  fun s => (f (hworld s), s).

Definition debug_log (msg : string) : M hstate unit :=
  modify (fun s => HState (hworld s) (calls s ++ [CDebugLog msg])).

(** [f"{int(t // 60)}m {int(t % 60)}s" if t >= 60 else f"{int(t)}s"] *)
Definition duration_human (t : value) : result string :=
  match ge60 t with
  | Raise e => Raise e
  | Ok true =>
      match int_floordiv60 t with
      | Raise e => Raise e
      | Ok m =>
          match int_mod60 t with
          | Raise e => Raise e
          | Ok sec => Ok (py_str_int m ++ "m " ++ py_str_int sec ++ "s")
          end
      end
  | Ok false =>
      match int_of t with
      | Raise e => Raise e
      | Ok sec => Ok (py_str_int sec ++ "s")
      end
  end.

(** The estimate, the job and the submission shared by the three
    handlers; [job_path] is what [create_job] receives. Returns the job
    id and the estimate. *)
Definition start_job (path_obj job_path : string) (is_dependency : bool)
  : M hstate (string * value * value) :=
  est ← hcall_rw (CEstimate path_obj) (estimate_processing_time path_obj) ;
  '(total_files, estimated_time) ← lift_result (unpack2 est) ;
  job_id ← hcall_rw (CCreateJob job_path is_dependency)
                    (create_job job_path is_dependency) ;
  hcall_rw (CUpdateJob job_id total_files estimated_time)
           (update_job job_id total_files estimated_time) ;;
  coro ← hcall_rw (CBuildCoroutine path_obj is_dependency job_id)
                  (build_graph_from_path_async path_obj is_dependency job_id) ;
  hcall_rw CSubmit (run_coroutine_threadsafe coro) ;;
  mret (job_id, total_files, estimated_time).

(** The last four entries of a success payload. *)
Definition with_estimate (job_id : string) (total_files estimated_time : value)
    (d : gmap string value) : result (gmap string value) :=
  match round2 estimated_time with
  | Raise e => Raise e
  | Ok rounded =>
      match duration_human estimated_time with
      | Raise e => Raise e
      | Ok human =>
          Ok (<["instructions" :=
                 VStr ("Use 'check_job_status' with job_id '" ++ job_id
                       ++ "' to monitor progress")]>
              (<["estimated_duration_human" := VStr human]>
               (<["estimated_duration_seconds" := rounded]>
                (<["estimated_files" := total_files]> d))))
      end
  end.

(** [Path(repo["path"]).resolve()] *)
Definition resolved_path (repo : value) (w : W) : result string :=
  match py_getitem repo "path" with
  | Raise e => Raise e
  | Ok p =>
      match Path p with
      | Raise e => Raise e
      | Ok p => path_resolve p w
      end
  end.

(** The loop of lines 37-42 and 118-123: the first listed entry whose
    resolved path is [path_obj]. *)
Fixpoint find_indexed_path (path_obj : string) (repos : list value)
  : M hstate bool :=
  match repos with
  | [] => mret false
  | repo :: rest =>
      r ← hquery (resolved_path repo) ;
      if String.eqb r path_obj then mret true
      else find_indexed_path path_obj rest
  end.

(** [list_repos_func().get("repositories", [])], ready to be iterated *)
Definition indexed_repos : M hstate (list value) :=
  listing ← hcall_rw CListRepos list_repos_func ;
  repos ← lift_result (py_get listing "repositories" (VList [])) ;
  lift_result (py_iter repos).

Definition error_dict (msg : string) : gmap string value :=
  {[ "error" := VStr msg ]}.

Definition already_indexed (msg : string) : gmap string value :=
  <["message" := VStr msg]> {[ "success" := VBool false ]}.

(** The clone URL of lines 45-51: the token goes into the user-info
    position when there is a token and a host. *)
Definition build_clone_url (url : string) (parsed : parsed_url)
    (git_token : option string) : result string :=
  match git_token, hostname parsed with
  | Some (String _ _ as tok), Some (String _ _ as h) =>
      let clone_url := scheme parsed ++ "://" ++ tok ++ "@" ++ h in
      match url_port parsed with
      | Raise e => Raise e
      | Ok prt =>
          let clone_url :=
            match prt with
            | Some n => if n =? 0 then clone_url
                        else clone_url ++ ":" ++ py_str_int n
            | None => clone_url
            end in
          Ok (clone_url ++ url_path parsed)
      end
  | _, _ => Ok url
  end.

(** Lines 62-65: the error text after a failed clone. *)
Definition clone_failed_message (stderr_text : string) (git_token : option string)
  : string :=
  let stderr_text :=
    match git_token with
    | Some (String _ _ as tok) => py_replace stderr_text tok "***"
    | _ => stderr_text
    end in
  "git clone failed: " ++ py_strip stderr_text.

(** The [try] block of [index_repository]. *)
Definition index_repository_body (environ : gmap string string)
    (url branch : string) (is_dependency : bool)
  : M hstate (gmap string value) :=
  parsed ← lift_result (urlparse url) ;
  let repo_name := derive_repo_name (url_path parsed) in
  if String.eqb repo_name "" then
    mret (error_dict ("Could not derive repository name from URL: " ++ url))
  else
    let clone_path := workspace_path repo_name in
    path_obj ← hquery (path_resolve clone_path) ;
    repos ← indexed_repos ;
    dup ← find_indexed_path path_obj repos ;
    if dup : bool then
      mret (already_indexed ("Repository '" ++ repo_name
                             ++ "' is already indexed at " ++ path_obj ++ "."))
    else
      let git_token := environ !! "GIT_TOKEN" in
      clone_url ← lift_result (build_clone_url url parsed git_token) ;
      debug_log ("Cloning " ++ url ++ " (branch: " ++ branch ++ ") into "
                 ++ clone_path) ;;
      let argv := ["git"; "clone"; "--depth"; "1"; "--branch"; branch;
                   clone_url; clone_path] in
      proc ← hcall_rw (CSubprocessRun argv) (subprocess_run argv) ;
      if negb (returncode proc =? 0) then
        mret (error_dict (clone_failed_message (stderr proc) git_token))
      else
        '(job_id, total_files, estimated_time) ←
          start_job path_obj path_obj is_dependency ;
        debug_log ("Started background job " ++ job_id ++ " for cloned repo: "
                   ++ repo_name ++ " at " ++ path_obj) ;;
        lift_result
          (with_estimate job_id total_files estimated_time
             (<["message" := VStr ("Cloned '" ++ repo_name
                                   ++ "' and started indexing")]>
              (<["branch" := VStr branch]>
               (<["clone_path" := VStr path_obj]>
                (<["repository" := VStr repo_name]>
                 (<["job_id" := VStr job_id]>
                  {[ "success" := VBool true ]})))))).

(** [index_repository] *)
Definition index_repository (environ : gmap string string)
    (args : index_repository_args) : M hstate (gmap string value) :=
  let branch := match arg_branch args with Some b => b | None => "main" end in
  let is_dependency :=
    match arg_repo_is_dependency args with Some b => b | None => false end in
  match arg_url args with
  | None | Some "" => mret (error_dict "The 'url' parameter is required.")
  | Some (String _ _ as url) =>
      try_except (index_repository_body environ url branch is_dependency)
        (fun e =>
           if is_TimeoutExpired e then
             mret (error_dict ("git clone timed out after 300 seconds for " ++ url))
           else
             debug_log ("Error in index_repository: " ++ exn_str e) ;;
             mret (error_dict ("Failed to clone and index repository: "
                               ++ exn_str e)))
  end.

(** The [try] block of [add_code_to_graph]. *)
Definition add_code_to_graph_body (path : option string) (is_dependency : bool)
  : M hstate (gmap string value) :=
  p ← lift_result (Path_of_arg path) ;
  path_obj ← hquery (path_resolve p) ;
  found ← hquery (path_exists path_obj) ;
  if negb found then
    mret (<["message" := VStr ("Path '" ++ fmt_opt_str path ++ "' does not exist.")]>
          (<["status" := VStr "path_not_found"]>
           {[ "success" := VBool true ]}))
  else
    repos ← indexed_repos ;
    dup ← find_indexed_path path_obj repos ;
    if dup : bool then
      mret (already_indexed ("Repository '" ++ fmt_opt_str path
                             ++ "' is already indexed."))
    else
      '(job_id, total_files, estimated_time) ←
        start_job path_obj path_obj is_dependency ;
      debug_log ("Started background job " ++ job_id ++ " for path: " ++ path_obj
                 ++ ", is_dependency: " ++ py_str_bool is_dependency) ;;
      lift_result
        (with_estimate job_id total_files estimated_time
           (<["message" := VStr ("Background processing started for " ++ path_obj)]>
            (<["job_id" := VStr job_id]>
             {[ "success" := VBool true ]}))).

(** [add_code_to_graph] *)
Definition add_code_to_graph (args : add_code_args) : M hstate (gmap string value) :=
  let is_dependency :=
    match arg_code_is_dependency args with Some b => b | None => false end in
  try_except (add_code_to_graph_body (arg_path args) is_dependency)
    (fun e =>
       debug_log ("Error creating background job: " ++ exn_str e) ;;
       mret (error_dict ("Failed to start background processing: " ++ exn_str e))).

(** The test of line 164 on one listed entry. *)
Definition is_listed_package (package_name : option string) (repo : value)
  : result bool :=
  match py_get repo "is_dependency" VNone with
  | Raise e => Raise e
  | Ok dep =>
      if py_truthy dep then
        match py_get repo "name" VNone with
        | Raise e => Raise e
        | Ok name =>
            Ok (eq_opt_str name package_name
                || eq_opt_str name (Some (fmt_opt_str package_name ++ ".py")))
        end
      else Ok false
  end.

(** The loop of lines 163-168. *)
Fixpoint find_indexed_package (package_name : option string) (repos : list value)
  : result bool :=
  match repos with
  | [] => Ok false
  | repo :: rest =>
      match is_listed_package package_name repo with
      | Raise e => Raise e
      | Ok true => Ok true
      | Ok false => find_indexed_package package_name rest
      end
  end.

(** The [try] block of [add_package_to_graph]. *)
Definition add_package_to_graph_body (package_name : option string)
    (language : string) (is_dependency : bool) : M hstate (gmap string value) :=
  repos ← indexed_repos ;
  dup ← lift_result (find_indexed_package package_name repos) ;
  if dup : bool then
    mret (already_indexed ("Package '" ++ fmt_opt_str package_name
                           ++ "' is already indexed."))
  else
    located ← hcall_rw (CLocatePackage package_name language)
                       (get_local_package_path package_name language) ;
    match located with
    | None | Some "" =>
        mret (error_dict ("Could not find package '" ++ fmt_opt_str package_name
                          ++ "' for language '" ++ language
                          ++ "'. Make sure it's installed."))
    | Some (String _ _ as package_path) =>
        s ← get ;
        if negb (os_path_exists package_path (hworld s)) then
          mret (error_dict ("Package path '" ++ package_path ++ "' does not exist"))
        else
          '(job_id, total_files, estimated_time) ←
            start_job package_path package_path is_dependency ;
          debug_log ("Started background job " ++ job_id ++ " for package: "
                     ++ fmt_opt_str package_name ++ " at " ++ package_path
                     ++ ", is_dependency: " ++ py_str_bool is_dependency) ;;
          lift_result
            (with_estimate job_id total_files estimated_time
               (<["message" := VStr ("Background processing started for package '"
                                     ++ fmt_opt_str package_name ++ "'")]>
                (<["discovered_path" := VStr package_path]>
                 (<["package_name" :=
                      match package_name with Some n => VStr n | None => VNone end]>
                  (<["job_id" := VStr job_id]>
                   {[ "success" := VBool true ]})))))
    end.

(** [add_package_to_graph] *)
Definition add_package_to_graph (args : add_package_args)
  : M hstate (gmap string value) :=
  let package_name := arg_package_name args in
  let is_dependency :=
    match arg_package_is_dependency args with Some b => b | None => true end in
  match arg_language args with
  | None | Some "" => mret (error_dict "The 'language' parameter is required.")
  | Some (String _ _ as language) =>
      try_except (add_package_to_graph_body package_name language is_dependency)
        (fun e =>
           debug_log ("Error creating background job for package "
                      ++ fmt_opt_str package_name ++ ": " ++ exn_str e) ;;
           mret (error_dict ("Failed to start background processing for package '"
                             ++ fmt_opt_str package_name ++ "': " ++ exn_str e)))
  end.

End Handlers.

(* ===================================================================== *)
(** ** Test doubles

    Stand-ins for the collaborators, in the manner of the mocks of
    [tests/unit/core/test_database_falkordb_remote.py]; the properties
    below are instantiated on them. *)
(* ===================================================================== *)

(** A server that refuses the next [refused_selects] graph selections and
    the next [refused_queries] queries, and accepts everything else. *)
Record mock_server : Type := MockServer {
  refused_selects : nat;
  refused_queries : nat
}.

Definition connection_refused : exn := Exn ConnectionError "connection refused".

Definition mock_client : FalkorDBClient mock_server (gmap string value) string := {|
  import_falkordb := fun w => (Ok tt, w);
  FalkorDB := fun kwargs w => (Ok kwargs, w);
  select_graph := fun _ name w =>
    match refused_selects w with
    | O => (Ok name, w)
    | S k => (Raise connection_refused, MockServer k (refused_queries w))
    end;
  query := fun _ _ w =>
    match refused_queries w with
    | O => (Ok tt, w)
    | S k => (Raise connection_refused, MockServer (refused_selects w) k)
    end
|}.

(** Collaborators over a world without state: the lister answers
    [listing], the package resolver answers [located], the estimator
    answers ten files and ninety seconds, the job store hands out
    ["job-1"]. *)
Definition mock_collab (listing : value) (located : option string)
  : Collaborators unit unit := {|
  list_repos_func := fun w => (Ok listing, w);
  estimate_processing_time := fun _ w => (Ok (VList [VInt 10; VInt 90]), w);
  build_graph_from_path_async := fun _ _ _ w => (Ok tt, w);
  create_job := fun _ _ w => (Ok "job-1", w);
  update_job := fun _ _ _ w => (Ok tt, w);
  run_coroutine_threadsafe := fun _ w => (Ok tt, w);
  get_local_package_path := fun _ _ w => (Ok located, w)
|}.

Definition mock_int (f : Z -> Z) (v : value) : result Z :=
  match v with
  | VInt n => Ok (f n)
  | _ => Raise (Exn TypeError "unsupported operand")
  end.

(** A platform whose file system is given by [resolve] and [present], and
    whose [git] answers [clone]. URLs are those of one host. *)
Definition mock_platform (resolve : string -> string) (present : string -> bool)
    (clone : result completed_process) : Platform unit := {|
  urlparse := fun url =>
    Ok (ParsedUrl "https" (Some "example.com") (Ok None) "/org/myrepo.git");
  path_resolve := fun p _ => Ok (resolve p);
  path_exists := fun p _ => Ok (present p);
  os_path_exists := fun p _ => present p;
  subprocess_run := fun _ w => (clone, w);
  round2 := fun v => Ok v;
  ge60 := fun v => match v with
                   | VInt n => Ok (60 <=? n)
                   | _ => Raise (Exn TypeError "unsupported operand")
                   end;
  int_floordiv60 := mock_int (fun n => n / 60);
  int_mod60 := mock_int (fun n => n mod 60);
  int_of := mock_int (fun n => n)
|}.

(** A working directory [/home/dev] in which [proj] can be spelled in
    several ways. *)
Definition mock_resolve (p : string) : string :=
  if bool_decide (p ∈ ["proj"; "./proj"; "src/../proj"; "/home/dev/proj"])
  then "/home/dev/proj" else p.

Definition mock_record (path name : string) (is_dependency : bool) : value :=
  VDict (<["is_dependency" := VBool is_dependency]>
         (<["name" := VStr name]> {[ "path" := VStr path ]})).

Definition mock_listing (records : list value) : value :=
  VDict {[ "repositories" := VList records ]}.

(** Concrete inputs for the scenarios of the specification. *)

Definition demo_settings : settings := Settings 6379 None None false "codegraph".

Definition demo_manager : instance (gmap string value) string :=
  Instance_ (Some "simple.host") (Some demo_settings) true None None.

Definition demo_kwargs : gmap string value :=
  <["port" := VInt 6379]> {[ "host" := VStr "simple.host" ]}.

Definition demo_platform (present : bool) (clone : result completed_process)
  : Platform unit :=
  mock_platform mock_resolve (fun _ => present) clone.

Definition git_ok : result completed_process := Ok (CompletedProcess 0 "").

Definition demo_listing : list value :=
  [mock_record "/srv/other" "other" false; mock_record "src/../proj" "proj" false].

Definition requests_path : string := "/usr/lib/python3/site-packages/requests".

Definition babel_path : string := "/usr/lib/node_modules/@babel/core".

Definition demo_url : string := "https://example.com/org/myrepo.git".

Definition demo_token : string := "ghp_s3cr3t".

Definition demo_stderr : string :=
  "Cloning into '/workspace/myrepo'...
fatal: unable to access 'https://ghp_s3cr3t@example.com/org/myrepo.git/': The requested URL returned error: 403
".

Definition git_failed (err : string) : result completed_process :=
  Ok (CompletedProcess 128 err).

Definition demo_clone_args : index_repository_args :=
  IndexRepositoryArgs (Some demo_url) None None.

Definition demo_argv : list string :=
  ["git"; "clone"; "--depth"; "1"; "--branch"; "main";
   "https://ghp_s3cr3t@example.com/org/myrepo.git"; "/workspace/myrepo"].

Definition demo_redacted : string :=
  "git clone failed: Cloning into '/workspace/myrepo'...
fatal: unable to access 'https://***@example.com/org/myrepo.git/': The requested URL returned error: 403".

Definition demo_clone_log : hcall :=
  CDebugLog "Cloning https://example.com/org/myrepo.git (branch: main) into /workspace/myrepo".

(** ** Auxiliary notions of the further properties *)

(** A run of constructions, one per environment, on the same class. *)
Fixpoint construct_all {Driver Graph : Type} (envs : list (gmap string string))
    (cls : class_state Driver Graph) : class_state Driver Graph :=
  match envs with
  | [] => cls
  | env :: rest => construct_all rest (FalkorDBRemoteManager env cls).2
  end.

(** The events of a connection attempt that goes through. *)
Definition connect_events (h : string) (cfg : settings) : list event :=
  [EImport;
   EInfoLog ("Connecting to remote FalkorDB at " ++ h ++ ":"
             ++ py_str_int (port cfg) ++ " (ssl=" ++ py_str_bool (ssl cfg) ++ ")");
   EConstruct (get_driver_kwargs h cfg);
   ESelectGraph (graph_name cfg);
   EQuery "RETURN 1";
   EInfoLog "Remote FalkorDB connection established successfully";
   EInfoLog ("Graph name: " ++ graph_name cfg)].
(** The handler count of a class: one when its object is initialised, none
    otherwise. *)
Definition registered_once {Driver Graph : Type} (cls : class_state Driver Graph)
  : Prop :=
  atexit_registered cls
  = match _instance cls with
    | Some i => if _initialized i then 1%nat else 0%nat
    | None => 0%nat
    end.

(** The separator of URL paths. *)
Definition slash : ascii := "/"%char.

(** The calls of a job that is estimated, created, updated, built and
    submitted, in the order of lines 126-134. *)
Definition job_calls (path_obj job_path : string) (is_dependency : bool)
    (job_id : string) (total_files estimated_time : value) : list hcall :=
  [CEstimate path_obj;
   CCreateJob job_path is_dependency;
   CUpdateJob job_id total_files estimated_time;
   CBuildCoroutine path_obj is_dependency job_id;
   CSubmit].

(** ** More test doubles *)

(** A machine on which the [falkordb] package is not installed. *)
Definition mock_client_missing : FalkorDBClient unit unit unit := {|
  import_falkordb := fun w =>
    (Raise (Exn ModuleNotFoundError "No module named 'falkordb'"), w);
  FalkorDB := fun _ w => (Ok tt, w);
  select_graph := fun _ _ w => (Ok tt, w);
  query := fun _ _ w => (Ok tt, w)
|}.

(** A job store whose [update_job] fails. *)
Definition mock_collab_update_fails : Collaborators unit unit := {|
  list_repos_func := fun w => (Ok (mock_listing []), w);
  estimate_processing_time := fun _ w => (Ok (VList [VInt 10; VInt 90]), w);
  build_graph_from_path_async := fun _ _ _ w => (Ok tt, w);
  create_job := fun _ _ w => (Ok "job-1", w);
  update_job := fun _ _ _ w => (Raise (Exn RuntimeError "job store unavailable"), w);
  run_coroutine_threadsafe := fun _ w => (Ok tt, w);
  get_local_package_path := fun _ _ w => (Ok None, w)
|}.

(** The platform of [mock_platform] with another answer of [urlparse]. *)
Definition mock_platform_parsed (parsed : parsed_url) : Platform unit := {|
  urlparse := fun _ => Ok parsed;
  path_resolve := fun p _ => Ok (mock_resolve p);
  path_exists := fun _ _ => Ok true;
  os_path_exists := fun _ _ => true;
  subprocess_run := fun _ w => (git_ok, w);
  round2 := fun v => Ok v;
  ge60 := fun v => match v with
                   | VInt n => Ok (60 <=? n)
                   | _ => Raise (Exn TypeError "unsupported operand")
                   end;
  int_floordiv60 := mock_int (fun n => n / 60);
  int_mod60 := mock_int (fun n => n mod 60);
  int_of := mock_int (fun n => n)
|}.

Definition demo_connected : instance (gmap string value) string :=
  Instance_ (Some "simple.host") (Some demo_settings) true
            (Some demo_kwargs) (Some "codegraph").

Definition demo_state : @state mock_server (gmap string value) string :=
  State demo_manager (MockServer 0 0) [].

Definition demo_collab : Collaborators unit unit := mock_collab (mock_listing []) None.

Definition estimate_entries (job_id : string) (d : gmap string value)
  : gmap string value :=
  <["instructions" :=
     VStr ("Use 'check_job_status' with job_id '" ++ job_id ++ "' to monitor progress")]>
  (<["estimated_duration_human" := VStr "1m 30s"]>
   (<["estimated_duration_seconds" := VInt 90]>
    (<["estimated_files" := VInt 10]> d))).

Definition demo_code_payload : gmap string value :=
  estimate_entries "job-1"
    (<["message" := VStr "Background processing started for /home/dev/proj"]>
     (<["job_id" := VStr "job-1"]> {[ "success" := VBool true ]})).

Definition demo_package_payload : gmap string value :=
  estimate_entries "job-1"
    (<["message" := VStr "Background processing started for package 'requests'"]>
     (<["discovered_path" := VStr requests_path]>
      (<["package_name" := VStr "requests"]>
       (<["job_id" := VStr "job-1"]> {[ "success" := VBool true ]})))).

Definition demo_repo_payload : gmap string value :=
  estimate_entries "job-1"
    (<["message" := VStr "Cloned 'myrepo' and started indexing"]>
     (<["branch" := VStr "main"]>
      (<["clone_path" := VStr "/workspace/myrepo"]>
       (<["repository" := VStr "myrepo"]>
        (<["job_id" := VStr "job-1"]> {[ "success" := VBool true ]}))))).

Definition demo_bare_url : parsed_url :=
  ParsedUrl "https" (Some "example.com") (Ok None) "/".

(* ===================================================================== *)
(** * Part II: properties *)
(* ===================================================================== *)

(** ** Strings *)

Lemma chars_app (a b : string) : chars (a ++ b) = (chars a ++ chars b)%list.
Proof. unfold chars. induction a as [|c a IH]; simpl; [done|]. by rewrite IH. Qed.

Lemma chars_str (l : list ascii) : chars (str l) = l.
Proof. apply list_ascii_of_string_of_list_ascii. Qed.

Lemma is_prefix_spec (p l : list ascii) :
  is_prefix p l = true <-> exists post, l = (p ++ post)%list.
Proof.
  revert l. induction p as [|a p IH]; intros l; simpl.
  - split; [intros _; by exists l | done].
  - destruct l as [|b l].
    + split; [done | intros [post H]; discriminate].
    + destruct (Ascii.eqb_spec a b) as [->|Hne].
      * rewrite IH. split; intros [post H]; exists post; [by rewrite H | by injection H].
      * split; [done | intros [post H]; injection H; congruence].
Qed.

Lemma occurs_chars_spec (p l : list ascii) :
  occurs_chars p l = true <-> exists pre post, l = (pre ++ p ++ post)%list.
Proof.
  induction l as [|c l IH]; simpl.
  - rewrite orb_false_r, is_prefix_spec. split.
    + intros [post H]. by exists [], post.
    + intros (pre & post & H). destruct pre; [by exists post|discriminate].
  - rewrite orb_true_iff, is_prefix_spec, IH. split.
    + intros [[post H] | (pre & post & H)].
      * by exists [], post.
      * exists (c :: pre), post. by rewrite H.
    + intros (pre & post & H). destruct pre as [|c' pre].
      * left. by exists post.
      * right. exists pre, post. by injection H.
Qed.

Lemma is_prefix_replace (tok t l : list ascii) :
  star ∉ t ->
  is_prefix t (replace_chars tok stars l) = true -> is_prefix t l = true.
Proof.
  revert t. funelim (replace_chars tok stars l); intros t Hstar Hp.
  - done.
  - destruct t as [|a t]; [done|]. exfalso.
    simpl in Hp. destruct (Ascii.eqb_spec a star) as [->|_]; [|done].
    apply Hstar. apply elem_of_cons. by left.
  - destruct t as [|a t]; [done|].
    simpl in *. destruct (Ascii.eqb a c); [|done].
    apply H; [|done]. intros Hin. apply Hstar. apply elem_of_cons. by right.
Qed.

Lemma occurs_replace (tok l : list ascii) :
  tok <> [] -> star ∉ tok ->
  occurs_chars tok (replace_chars tok stars l) = false.
Proof.
  intros Hne Hstar. funelim (replace_chars tok stars l).
  - destruct old; [done|]. reflexivity.
  - destruct old as [|a tok]; [done|].
    assert (Ha : Ascii.eqb a star = false).
    { apply Ascii.eqb_neq. intros ->. apply Hstar. apply elem_of_cons. by left. }
    cbn [stars app occurs_chars is_prefix]. rewrite Ha. cbn [orb].
    by apply H.
  - cbn [occurs_chars]. rewrite H by done. rewrite orb_false_r.
    destruct (is_prefix old (c :: replace_chars old stars l')) eqn:E; [|done].
    rewrite Heqcall in E.
    apply is_prefix_replace in E; [|done]. congruence.
Qed.

Lemma occurs_app_r (t a b : list ascii) :
  occurs_chars t b = true -> occurs_chars t (a ++ b) = true.
Proof.
  rewrite !occurs_chars_spec. intros (pre & post & ->).
  exists (a ++ pre)%list, post. by rewrite <- app_assoc.
Qed.

Lemma occurs_app_l (t a b : list ascii) :
  occurs_chars t a = true -> occurs_chars t (a ++ b) = true.
Proof.
  rewrite !occurs_chars_spec. intros (pre & post & ->).
  exists pre, (post ++ b)%list. by rewrite <- !app_assoc.
Qed.

Lemma lstrip_chars_suffix (l : list ascii) :
  exists pre, l = (pre ++ lstrip_chars l)%list.
Proof.
  induction l as [|c l [pre IH]]; simpl.
  - by exists [].
  - destruct (is_space c).
    + exists (c :: pre). simpl. by rewrite <- IH.
    + by exists [].
Qed.

Lemma rstrip_chars_prefix (l : list ascii) :
  exists post, l = (rstrip_chars l ++ post)%list.
Proof.
  unfold rstrip_chars. destruct (lstrip_chars_suffix (rev l)) as [pre H].
  exists (rev pre). rewrite <- rev_app_distr, <- H. by rewrite rev_involutive.
Qed.

Lemma occurs_strip (t l : list ascii) :
  occurs_chars t (rstrip_chars (lstrip_chars l)) = true -> occurs_chars t l = true.
Proof.
  intros H.
  destruct (lstrip_chars_suffix l) as [pre Hl].
  destruct (rstrip_chars_prefix (lstrip_chars l)) as [post Hr].
  rewrite Hl, Hr. apply occurs_app_r, occurs_app_l, H.
Qed.

(** An occurrence in [p ++ sep :: l] lies in [p], lies in [l], or covers
    the separator. *)
Lemma occurs_app_inv (t p l : list ascii) (sep : ascii) :
  sep ∉ t ->
  occurs_chars t (p ++ [sep] ++ l) = true ->
  occurs_chars t p = true \/ occurs_chars t l = true.
Proof.
  intros Hsep. rewrite !occurs_chars_spec. intros (pre & post & H).
  apply app_eq_app in H as [k [[Hp Hk] | [Hpre Hk]]].
  - (* the occurrence starts inside [p] *)
    left. apply app_eq_app in Hk as [k2 [[Ht Hl] | [Hk Hpost]]].
    + destruct k2 as [|x k2].
      * rewrite app_nil_r in Ht. subst k. exists pre, []. by rewrite app_nil_r.
      * injection Hl as <- _. exfalso. apply Hsep. rewrite Ht.
        apply elem_of_app. right. apply elem_of_cons. by left.
    + exists pre, k2. by rewrite Hp, Hk.
  - (* the occurrence starts at or after the separator *)
    right. destruct k as [|x k].
    + destruct t as [|a t].
      * by exists [], l.
      * injection Hk as <- _. exfalso. apply Hsep. apply elem_of_cons. by left.
    + injection Hk as _ Hk. by exists k, post.
Qed.

Lemma py_in_middle (a x b : string) : py_in x (a ++ x ++ b) = true.
Proof.
  unfold py_in. rewrite !chars_app. apply occurs_chars_spec.
  by exists (chars a), (chars b).
Qed.

Lemma chars_nonempty (s : string) : s <> "" -> chars s <> [].
Proof. by destruct s. Qed.

(** After redaction and trimming, a token without an asterisk no longer
    occurs in the process output. *)
Lemma redacted_output_hides_token (tok err : string) :
  tok <> "" ->
  star ∉ chars tok ->
  py_in tok (py_strip (py_replace err tok "***")) = false.
Proof.
  intros Hne Hstar. unfold py_in. apply not_true_is_false. intros H.
  unfold py_strip in H. rewrite chars_str in H. apply occurs_strip in H.
  unfold py_replace in H. destruct (chars tok) as [|a t] eqn:E.
  - by apply chars_nonempty in Hne.
  - rewrite chars_str in H. change (chars "***") with stars in H.
    rewrite occurs_replace in H; done.
Qed.

(** [prefix] is a text that ends in a space. *)
Lemma py_in_after_space (tok prefix rest : string) :
  " "%char ∉ chars tok ->
  py_in tok (prefix ++ " ") = false ->
  py_in tok rest = false ->
  py_in tok ((prefix ++ " ") ++ rest) = false.
Proof.
  unfold py_in. intros Hsp Hpre Hrest.
  apply not_true_is_false. intros H.
  rewrite !chars_app in H. rewrite chars_app in Hpre.
  change (chars " ") with [" "%char] in *.
  rewrite <- app_assoc in H.
  apply occurs_app_inv in H as [H | H]; [| congruence | done].
  apply (occurs_app_l _ _ [" "%char]) in H. congruence.
Qed.

(** ** The monad *)

Ltac unfold_M :=
  unfold mbind, mret, M_bind, M_ret, bind, ret, raise, try_except, get, modify,
    lift_result in *.

(** ** [validate_config] *)

Example validate_config_host_only :
  validate_config {[ "FALKORDB_HOST" := "myhost" ]} = (true, None).
Proof. vm_compute. reflexivity. Qed.

Example validate_config_no_host :
  validate_config ∅ = (false, Some "FALKORDB_HOST environment variable is not set.").
Proof. vm_compute. reflexivity. Qed.

Example validate_config_bad_port :
  validate_config (<["FALKORDB_PORT" := "abc"]> {[ "FALKORDB_HOST" := "h" ]})
  = (false, Some "FALKORDB_PORT must be a number, got 'abc'.").
Proof. vm_compute. reflexivity. Qed.

Example validate_config_port_zero :
  validate_config (<["FALKORDB_PORT" := " +0_0 "]> {[ "FALKORDB_HOST" := "h" ]})
  = (false, Some "FALKORDB_PORT must be between 1 and 65535, got 0.").
Proof. vm_compute. reflexivity. Qed.

(** A port text that starts with the separator FS (code point 28):
    [str.strip] would remove it, [int] refuses it. *)
Example py_int_refuses_separator :
  py_int (String (ascii_of_nat 28) "80")
  = Raise (Exn ValueError
             ("invalid literal for int() with base 10: '" ++ "\x1c80" ++ "'")).
Proof. vm_compute. reflexivity. Qed.

Example validate_config_separator_port :
  validate_config (<["FALKORDB_PORT" := String (ascii_of_nat 28) "80"]>
                     {[ "FALKORDB_HOST" := "h" ]})
  = (false, Some ("FALKORDB_PORT must be a number, got '"
                  ++ String (ascii_of_nat 28) "80" ++ "'.")).
Proof. vm_compute. reflexivity. Qed.

Example py_int_accepts_surrounding_space :
  py_int (String (ascii_of_nat 9) "6_379 ") = Ok 6379.
Proof. vm_compute. reflexivity. Qed.

Lemma py_int_Ok (s : string) (p : Z) :
  py_int s = Ok p <-> parse_int_chars (chars s) = Some p.
Proof. unfold py_int. destruct (parse_int_chars (chars s)); split; congruence. Qed.

Lemma py_int_Raise (s : string) (e : exn) :
  py_int s = Raise e ->
  parse_int_chars (chars s) = None /\ e = int_ValueError s.
Proof. unfold py_int. destruct (parse_int_chars (chars s)); [done|]. by intros [= <-]. Qed.

(** C6. [validate_config] is a function of the environment alone. With a
    non-empty host it answers [(True, None)] when the port text parses as
    an integer between 1 and 65535, [False] with a message that contains
    the parsed value when the integer is out of range, and [False] with a
    message that contains the port text when the text is not an integer.
    With a missing or empty host it answers [False] with a message that
    names [FALKORDB_HOST]. *)
Theorem validate_config_spec (env : gmap string string) :
  let port_str := getenv_default env "FALKORDB_PORT" "6379" in
  (forall h, env !! "FALKORDB_HOST" = Some h -> h <> "" ->
     (forall p, py_int port_str = Ok p -> 1 <= p <= 65535 ->
        validate_config env = (true, None))
     /\ (forall p, py_int port_str = Ok p -> ~ (1 <= p <= 65535) ->
           exists msg, validate_config env = (false, Some msg)
                       /\ py_in (py_str_int p) msg = true)
     /\ (forall e, py_int port_str = Raise e ->
           exists msg, validate_config env = (false, Some msg)
                       /\ py_in port_str msg = true))
  /\ (env !! "FALKORDB_HOST" = None \/ env !! "FALKORDB_HOST" = Some "" ->
        exists msg, validate_config env = (false, Some msg)
                    /\ py_in "FALKORDB_HOST" msg = true).
Proof.
  intros port_str. split.
  - intros h Hh Hne. unfold validate_config. rewrite Hh.
    destruct h as [|c h]; [done|]. fold port_str.
    split; [|split].
    + intros p Hp Hr. apply py_int_Ok in Hp. rewrite Hp.
      replace ((1 <=? p) && (p <=? 65535)) with true; [done|].
      symmetry. apply andb_true_iff. split; apply Z.leb_le; lia.
    + intros p Hp Hr. apply py_int_Ok in Hp. rewrite Hp.
      replace ((1 <=? p) && (p <=? 65535)) with false.
      * eexists. split; [reflexivity|]. apply py_in_middle.
      * symmetry. apply andb_false_iff.
        destruct (Z.leb_spec 1 p); [right|by left].
        apply Z.leb_gt. lia.
    + intros e He. apply py_int_Raise in He as [He _]. rewrite He.
      eexists. split; [reflexivity|]. apply py_in_middle.
  - intros [H | H]; unfold validate_config; rewrite H;
      (eexists; split; [reflexivity|]); vm_compute; reflexivity.
Qed.

(** ** [FalkorDBRemoteManager] *)

Lemma construct_calls_app (t u : list event) :
  construct_calls (t ++ u) = (construct_calls t ++ construct_calls u)%list.
Proof.
  induction t as [|e t IH]; [done|]. destruct e; simpl; by rewrite ?IH.
Qed.

Lemma or_None_truthy (x : option string) :
  match or_None x with
  | Some (String _ _) => True
  | Some "" => False
  | None => True
  end.
Proof. by destruct x as [[|c s]|]. Qed.


Lemma get_driver_kwargs_lookup (h : string) (cfg : settings) :
  let kw := get_driver_kwargs h cfg in
  kw !! "host" = Some (VStr h)
  /\ kw !! "port" = Some (VInt (port cfg))
  /\ kw !! "password" = VStr <$> or_None (password cfg)
  /\ kw !! "username" = VStr <$> or_None (username cfg)
  /\ kw !! "ssl" = (if ssl cfg then Some (VBool true) else None)
  /\ dom kw ⊆ {[ "host"; "port"; "password"; "username"; "ssl" ]}.
Proof.
  destruct cfg as [p pw un [|] gn]; destruct pw as [[|c1 pw]|];
    destruct un as [[|c2 un]|]; cbn -[dom];
    (repeat split; [reflexivity.. |]);
    rewrite ?dom_insert_L, dom_empty_L; set_solver.
Qed.


Section ManagerProperties.
Context {W Driver Graph : Type} {client : FalkorDBClient W Driver Graph}.

(** *** [is_connected] *)

(** C8. [is_connected] never raises and leaves the cached handles as
    they are. It answers [False] when no graph is cached; with a cached
    graph it answers [True] when the liveness query succeeds and [False]
    when the query raises. *)
Theorem is_connected_never_raises (s : state) :
  exists b s',
    is_connected s = (Ok b, s')
    /\ self s' = self s
    /\ (_graph (self s) = None -> b = false /\ s' = s)
    /\ (forall g, _graph (self s) = Some g ->
          b = match (query g "RETURN 1" (world s)).1 with
              | Ok _ => true
              | Raise _ => false
              end).
Proof.
  unfold is_connected. unfold_M. unfold call.
  destruct (_graph (self s)) as [g|] eqn:Hg.
  - destruct (query g "RETURN 1" (world s)) as [[u|e] w] eqn:Hq.
    + eexists _, _. split; [reflexivity|]. split; [done|]. split; [done|].
      intros g' [= <-]. by rewrite Hq.
    + eexists _, _. split; [reflexivity|]. split; [done|]. split; [done|].
      intros g' [= <-]. by rewrite Hq.
  - exists false, s. repeat split; done.
Qed.

(** *** [get_driver] *)

Lemma get_driver_cached (s : state) (d : Driver) :
  _driver (self s) = Some d ->
  get_driver s = (Ok (Wrapper (_graph (self s))), s).
Proof. intros Hd. unfold get_driver. unfold_M. by rewrite Hd. Qed.

(** A failure of the constructor leaves nothing behind. *)
Lemma get_driver_failed_constructor (s : state) (h : string) (cfg : settings)
    (e : exn) (w1 w2 : W) :
  _driver (self s) = None ->
  host (self s) = Some h ->
  config (self s) = Some cfg ->
  import_falkordb (world s) = (Ok tt, w1) ->
  FalkorDB (get_driver_kwargs h cfg) w1 = (Raise e, w2) ->
  is_ImportError e = false ->
  exists s1, get_driver s = (Raise e, s1) /\ self s1 = self s.
Proof.
  intros Hd Hh Hc Hi Hf He.
  unfold get_driver, connect, attr, call, emit, set_driver, set_graph.
  unfold_M. rewrite Hd. simpl. rewrite Hi. simpl. rewrite Hh, Hc. simpl.
  rewrite Hf. simpl. rewrite He. by eexists.
Qed.

(** C1. When the constructor succeeds and [select_graph] raises [e],
    [get_driver] raises [e] and [_driver] stays set to the new driver;
    the next [get_driver] then makes no call at all and returns a
    wrapper around the graph cached before the attempt. *)
Theorem get_driver_failed_select_graph_stays_cached
    (s : state) (h : string) (cfg : settings) (d : Driver) (e : exn) (w1 w2 w3 : W) :
  _driver (self s) = None ->
  host (self s) = Some h ->
  config (self s) = Some cfg ->
  import_falkordb (world s) = (Ok tt, w1) ->
  FalkorDB (get_driver_kwargs h cfg) w1 = (Ok d, w2) ->
  select_graph d (graph_name cfg) w2 = (Raise e, w3) ->
  is_ImportError e = false ->
  exists s1,
    get_driver s = (Raise e, s1)
    /\ _driver (self s1) = Some d
    /\ _graph (self s1) = _graph (self s)
    /\ get_driver s1 = (Ok (Wrapper (_graph (self s))), s1).
Proof.
  intros Hd Hh Hc Hi Hf Hsel He.
  unfold get_driver at 1. unfold connect, attr, call, emit, set_driver, set_graph.
  unfold_M. rewrite Hd. simpl. rewrite Hi. simpl. rewrite Hh, Hc. simpl.
  rewrite Hf. simpl. rewrite Hsel. simpl. rewrite He.
  eexists. split; [reflexivity|]. simpl. split; [done|]. split; [done|].
  erewrite get_driver_cached; [|reflexivity]. reflexivity.
Qed.

(** The same after a failed liveness query: driver and graph stay
    cached, and the next [get_driver] returns the graph that failed the
    query without querying it again. *)
Lemma get_driver_failed_probe_stays_cached
    (s : state) (h : string) (cfg : settings) (d : Driver) (g : Graph) (e : exn)
    (w1 w2 w3 w4 : W) :
  _driver (self s) = None ->
  host (self s) = Some h ->
  config (self s) = Some cfg ->
  import_falkordb (world s) = (Ok tt, w1) ->
  FalkorDB (get_driver_kwargs h cfg) w1 = (Ok d, w2) ->
  select_graph d (graph_name cfg) w2 = (Ok g, w3) ->
  query g "RETURN 1" w3 = (Raise e, w4) ->
  is_ImportError e = false ->
  exists s1,
    get_driver s = (Raise e, s1)
    /\ _driver (self s1) = Some d
    /\ _graph (self s1) = Some g
    /\ get_driver s1 = (Ok (Wrapper (Some g)), s1).
Proof.
  intros Hd Hh Hc Hi Hf Hsel Hq He.
  unfold get_driver at 1. unfold connect, attr, call, emit, set_driver, set_graph.
  unfold_M. rewrite Hd. simpl. rewrite Hi. simpl. rewrite Hh, Hc. simpl.
  rewrite Hf. simpl. rewrite Hsel. simpl. rewrite Hq. simpl. rewrite He.
  eexists. split; [reflexivity|]. simpl. split; [done|]. split; [done|].
  erewrite get_driver_cached; [|reflexivity]. reflexivity.
Qed.




(** *** Construction *)

(** C10. While no construction has completed: with the host variable
    unset and a port text that parses, construction returns a manager
    whose host is ["localhost"] (and [validate_config] reports the
    missing host); with a port text that does not parse, construction
    raises the [ValueError] of [int]. Once a construction has completed,
    every later construction returns the same manager, whatever the
    environment then holds, and does not raise. *)
Theorem construction_defaults_and_freezes :
  (forall (env : gmap string string) (cls : class_state Driver Graph) (p : Z),
     (forall i, _instance cls = Some i -> _initialized i = false) ->
     env !! "FALKORDB_HOST" = None ->
     py_int (getenv_default env "FALKORDB_PORT" "6379") = Ok p ->
     exists me cls',
       FalkorDBRemoteManager env cls = (Ok me, cls')
       /\ host me = Some "localhost"
       /\ validate_config env
          = (false, Some "FALKORDB_HOST environment variable is not set."))
  /\ (forall (env : gmap string string) (cls : class_state Driver Graph) (e : exn),
        (forall i, _instance cls = Some i -> _initialized i = false) ->
        py_int (getenv_default env "FALKORDB_PORT" "6379") = Raise e ->
        exn_cls e = ValueError
        /\ exists cls', FalkorDBRemoteManager env cls = (Raise e, cls'))
  /\ (forall (env env' : gmap string string) (cls cls' : class_state Driver Graph)
             (me : instance Driver Graph),
        FalkorDBRemoteManager env cls = (Ok me, cls') ->
        FalkorDBRemoteManager env' cls' = (Ok me, cls')).
Proof.
  split; [|split].
  - intros env cls p Hun Hhost Hp.
    unfold FalkorDBRemoteManager, new, init, validate_config.
    rewrite Hhost.
    destruct (_instance cls) as [i|] eqn:Hi; simpl.
    + rewrite (Hun i eq_refl), Hp. simpl. eexists _, _. split; [reflexivity|].
      unfold getenv_default. by rewrite Hhost.
    + rewrite ?Hi. simpl. rewrite Hp. eexists _, _. split; [reflexivity|].
      unfold getenv_default. by rewrite Hhost.
  - intros env cls e Hun Hp. split.
    { apply py_int_Raise in Hp as [_ ->]. done. }
    unfold FalkorDBRemoteManager, new, init.
    destruct (_instance cls) as [i|] eqn:Hi; simpl.
    + rewrite (Hun i eq_refl), Hp. by eexists.
    + rewrite ?Hi. simpl. rewrite Hp. by eexists.
  - intros env env' cls cls' me.
    unfold FalkorDBRemoteManager at 1. unfold new, init.
    destruct (_instance cls) as [i|] eqn:Hi; simpl.
    + destruct (_initialized i) eqn:Hinit.
      * intros [= <- <-]. unfold FalkorDBRemoteManager, new, init. simpl.
        by rewrite Hinit.
      * destruct (py_int (getenv_default env "FALKORDB_PORT" "6379")); [|done].
        intros [= <- <-]. reflexivity.
    + rewrite ?Hi. simpl.
      destruct (py_int (getenv_default env "FALKORDB_PORT" "6379")); [|done].
      intros [= <- <-]. reflexivity.
Qed.

End ManagerProperties.

(** ** The indexing handlers *)

Lemma py_in_app_r (x a b : string) : py_in x b = true -> py_in x (a ++ b) = true.
Proof. unfold py_in. rewrite chars_app. apply occurs_app_r. Qed.

Lemma py_in_app_l (x a b : string) : py_in x a = true -> py_in x (a ++ b) = true.
Proof. unfold py_in. rewrite chars_app. apply occurs_app_l. Qed.

Section HandlerProperties.
Context {W Coro : Type} {collab : Collaborators W Coro} {platform : Platform W}.

(** *** Deduplication by path *)

Lemma find_indexed_path_found (q : string) (repos : list value) (s : hstate) :
  Forall (fun r => exists rq, resolved_path r (hworld s) = Ok rq) repos ->
  Exists (fun r => resolved_path r (hworld s) = Ok q) repos ->
  find_indexed_path q repos s = (Ok true, s).
Proof.
  intros Hall Hex. induction repos as [|r repos IH]; [by inversion Hex|].
  inversion Hall as [|? ? [rq Hr] Hall']; subst.
  simpl. unfold hquery. unfold_M. rewrite Hr.
  destruct (String.eqb_spec rq q) as [->|Hne]; [done|].
  apply IH; [done|]. inversion Hex as [? ? Hq|]; subst; [congruence | done].
Qed.

Lemma find_indexed_path_keeps_state (q : string) (repos : list value) (s s' : hstate)
    (r : result bool) :
  find_indexed_path q repos s = (r, s') -> s' = s.
Proof.
  revert r. induction repos as [|x repos IH]; intros r; simpl; unfold hquery; unfold_M.
  - by intros [= _ <-].
  - destruct (resolved_path x (hworld s)) as [rq|e]; [|by intros [= _ <-]].
    destruct (String.eqb rq q); [by intros [= _ <-]|]. apply IH.
Qed.

Lemma indexed_repos_listing (s : hstate) (d : gmap string value) (rs : list value) (w' : W) :
  list_repos_func (hworld s) = (Ok (VDict d), w') ->
  d !! "repositories" = Some (VList rs) ->
  indexed_repos s = (Ok rs, HState w' (calls s ++ [CListRepos])).
Proof.
  intros Hl Hd. unfold indexed_repos, hcall_rw. unfold_M. rewrite Hl. simpl.
  by rewrite Hd.
Qed.

(** C9. When the path of an [add_code_to_graph] call resolves to a
    location that does not exist, the call returns
    [{success: True, status: "path_not_found", message: ...}] with a
    message that contains the path as given, and leaves the state as it
    was: no call to the lister, the estimator, the job store, the work
    factory or the event loop is made. *)
Theorem add_code_to_graph_path_not_found (args : add_code_args) (p q : string)
    (s : hstate) :
  arg_path args = Some p ->
  path_resolve p (hworld s) = Ok q ->
  path_exists q (hworld s) = Ok false ->
  exists msg,
    add_code_to_graph args s
    = (Ok (<["message" := VStr msg]>
           (<["status" := VStr "path_not_found"]> {[ "success" := VBool true ]})), s)
    /\ py_in p msg = true.
Proof.
  intros Hp Hr He. unfold add_code_to_graph, add_code_to_graph_body, hquery.
  unfold_M. rewrite Hp. simpl. rewrite Hr, He. simpl.
  eexists. split; [reflexivity|]. apply py_in_middle.
Qed.

(** C2. When the path of an [add_code_to_graph] call exists and some
    listed repository resolves to the same location as the candidate
    (all listed entries being records whose path resolves), the call
    returns [{success: False, message: ...}] with a message that says
    "already indexed", and its only call is the one to the lister:
    neither the estimator nor the job store is reached. The comparison
    is between resolved paths, whatever the spelling of the two. *)
Theorem add_code_to_graph_duplicate (args : add_code_args) (p q : string)
    (s : hstate) (d : gmap string value) (rs : list value) (w' : W) :
  arg_path args = Some p ->
  path_resolve p (hworld s) = Ok q ->
  path_exists q (hworld s) = Ok true ->
  list_repos_func (hworld s) = (Ok (VDict d), w') ->
  d !! "repositories" = Some (VList rs) ->
  Forall (fun r => exists rq, resolved_path r w' = Ok rq) rs ->
  Exists (fun r => resolved_path r w' = Ok q) rs ->
  exists msg,
    add_code_to_graph args s
    = (Ok (<["message" := VStr msg]> {[ "success" := VBool false ]}),
       HState w' (calls s ++ [CListRepos]))
    /\ py_in "already indexed" msg = true.
Proof.
  intros Hp Hr He Hl Hd Hall Hex.
  unfold add_code_to_graph, add_code_to_graph_body, hquery.
  unfold_M. rewrite Hp. simpl. rewrite Hr, He. simpl.
  pose proof (indexed_repos_listing s d rs w' Hl Hd) as Hi. unfold_M.
  rewrite Hi.
  rewrite (find_indexed_path_found q rs); [|done..].
  eexists. split; [reflexivity|].
  by do 2 apply py_in_app_r.
Qed.


(** *** Deduplication of packages *)

Lemma find_indexed_package_found (pkg : option string) (rs : list value) :
  Forall (fun r => exists rd, r = VDict rd) rs ->
  Exists (fun r => is_listed_package pkg r = Ok true) rs ->
  find_indexed_package pkg rs = Ok true.
Proof.
  intros Hall Hex. induction rs as [|r rs IH]; [by inversion Hex|].
  inversion Hall as [|? ? [rd ->] Hall']; subst. simpl.
  destruct (is_listed_package pkg (VDict rd)) as [[|]|e] eqn:E; [done| |].
  - apply IH; [done|]. inversion Hex; subst; [congruence | done].
  - unfold is_listed_package in E. simpl in E.
    by destruct (py_truthy _).
Qed.

(** C3, amended. [add_package_to_graph] recognises an indexed package by
    name, not by path: when the listing holds records only and one of
    them is flagged as a dependency and is named as the package, or as
    the package followed by [.py], the call returns
    [{success: False, message: ...}] with a message that says "already
    indexed", and its only call is the one to the lister: neither the
    package resolver, nor the estimator, nor the job store is reached. *)
Theorem add_package_to_graph_duplicate_by_name (args : add_package_args)
    (name lang : string) (s : hstate) (d : gmap string value) (rs : list value)
    (w' : W) :
  arg_package_name args = Some name ->
  arg_language args = Some lang ->
  lang <> "" ->
  list_repos_func (hworld s) = (Ok (VDict d), w') ->
  d !! "repositories" = Some (VList rs) ->
  Forall (fun r => exists rd, r = VDict rd) rs ->
  Exists (fun r => exists rd dep,
            r = VDict rd
            /\ rd !! "is_dependency" = Some dep /\ py_truthy dep = true
            /\ (rd !! "name" = Some (VStr name)
                \/ rd !! "name" = Some (VStr (name ++ ".py")))) rs ->
  exists msg,
    add_package_to_graph args s
    = (Ok (<["message" := VStr msg]> {[ "success" := VBool false ]}),
       HState w' (calls s ++ [CListRepos]))
    /\ py_in "already indexed" msg = true.
Proof.
  intros Hn Hlang Hne Hl Hd Hall Hex.
  unfold add_package_to_graph, add_package_to_graph_body.
  rewrite Hlang, Hn. destruct lang as [|c lang]; [done|].
  pose proof (indexed_repos_listing s d rs w' Hl Hd) as Hi.
  unfold_M. rewrite Hi.
  rewrite find_indexed_package_found; [| done |].
  - eexists. split; [reflexivity|]. by do 2 apply py_in_app_r.
  - eapply Exists_impl; [exact Hex|].
    intros r (rd & dep & -> & Hdep & Ht & Hname).
    unfold is_listed_package. simpl. rewrite Hdep, Ht.
    destruct Hname as [-> | ->]; simpl.
    + by rewrite String.eqb_refl.
    + by rewrite String.eqb_refl, orb_true_r.
Qed.

(** *** No handler raises *)

(** C5. Each of [index_repository], [add_code_to_graph] and
    [add_package_to_graph] returns a mapping for every input, every
    state and every behaviour of the collaborators; when the body of its
    [try] block raises [e], the mapping is [{"error": message}], the
    mapping whose one key is ["error"], with the text of [e] in the
    message (for [index_repository] and a timeout, the message of the
    timeout). *)
Theorem handlers_never_raise :
  (forall (environ : gmap string string) (args : index_repository_args) (s : hstate),
     exists d s',
       index_repository environ args s = (Ok d, s')
       /\ forall url e s1,
            arg_url args = Some url -> url <> "" ->
            index_repository_body environ url
              (match arg_branch args with Some b => b | None => "main" end)
              (match arg_repo_is_dependency args with Some b => b | None => false end)
              s = (Raise e, s1) ->
            d = {[ "error" :=
                     VStr (if is_TimeoutExpired e
                           then "git clone timed out after 300 seconds for " ++ url
                           else "Failed to clone and index repository: "
                                ++ exn_str e) ]})
  /\ (forall (args : add_code_args) (s : hstate),
        exists d s',
          add_code_to_graph args s = (Ok d, s')
          /\ forall e s1,
               add_code_to_graph_body (arg_path args)
                 (match arg_code_is_dependency args with Some b => b | None => false end)
                 s = (Raise e, s1) ->
               d = {[ "error" :=
                        VStr ("Failed to start background processing: "
                              ++ exn_str e) ]})
  /\ (forall (args : add_package_args) (s : hstate),
        exists d s',
          add_package_to_graph args s = (Ok d, s')
          /\ forall lang e s1,
               arg_language args = Some lang -> lang <> "" ->
               add_package_to_graph_body (arg_package_name args) lang
                 (match arg_package_is_dependency args with Some b => b | None => true end)
                 s = (Raise e, s1) ->
               d = {[ "error" :=
                        VStr ("Failed to start background processing for package '"
                              ++ fmt_opt_str (arg_package_name args) ++ "': "
                              ++ exn_str e) ]}).
Proof.
  split; [|split].
  - intros environ [url branch dep] s. unfold index_repository. simpl.
    destruct url as [[|c url]|].
    1,3: eexists _, _; split; [reflexivity|]; by intros ? ? ? [= <-].
    unfold debug_log. unfold_M.
    destruct (index_repository_body _ _ _ _ s) as [[d|e] s1] eqn:E.
    + eexists _, _. split; [reflexivity|]. intros ? ? ? [= <-] _. congruence.
    + destruct (is_TimeoutExpired e) eqn:Ht; simpl.
      * eexists _, _. split; [reflexivity|].
        intros ? ? ? [= <-] _. rewrite E. intros [= <- _]. by rewrite Ht.
      * eexists _, _. split; [reflexivity|].
        intros ? ? ? [= <-] _. rewrite E. intros [= <- _]. by rewrite Ht.
  - intros [path dep] s. unfold add_code_to_graph. simpl.
    unfold debug_log. unfold_M.
    destruct (add_code_to_graph_body _ _ s) as [[d|e] s1] eqn:E.
    + eexists _, _. split; [reflexivity|]. intros ? ?. congruence.
    + eexists _, _. split; [reflexivity|]. intros ? ?. by intros [= <- _].
  - intros [name lang dep] s. unfold add_package_to_graph. simpl.
    destruct lang as [[|c lang]|].
    1,3: eexists _, _; split; [reflexivity|]; by intros ? ? ? [= <-].
    unfold debug_log. unfold_M.
    destruct (add_package_to_graph_body _ _ _ s) as [[d|e] s1] eqn:E.
    + eexists _, _. split; [reflexivity|]. intros ? ? ? [= <-] _. congruence.
    + eexists _, _. split; [reflexivity|].
      intros ? ? ? [= <-] _. rewrite E. by intros [= <- _].
Qed.


(** *** A failed clone *)

(** C4, amended. Let a non-empty token be configured and let
    [index_repository] reach the clone. If [git] exits with a non-zero
    code, the result is [{"error": msg}] where [msg] is "git clone
    failed: " followed by the trimmed error output in which the
    occurrences of the token found from left to right are replaced by
    three asterisks; when the token holds no asterisk and no space and
    does not occur in "git clone failed: ", the token does not occur in
    [msg]. If [git] times out, the result is [{"error": msg}] where
    [msg] is "git clone timed out after 300 seconds for " followed by
    the URL as given, in which the token occurs only if it occurs in the
    fixed text or in that URL. In both cases the clone is the last call:
    no job is created. *)
Theorem index_repository_clone_failure
    (environ : gmap string string) (args : index_repository_args)
    (url tok : string) (parsed : parsed_url) (path_obj clone_url : string)
    (repos : list value) (s s1 : hstate) :
  let repo_name := derive_repo_name (url_path parsed) in
  let branch := match arg_branch args with Some b => b | None => "main" end in
  let argv := ["git"; "clone"; "--depth"; "1"; "--branch"; branch; clone_url;
               workspace_path repo_name] in
  let log := CDebugLog ("Cloning " ++ url ++ " (branch: " ++ branch ++ ") into "
                        ++ workspace_path repo_name) in
  arg_url args = Some url -> url <> "" ->
  environ !! "GIT_TOKEN" = Some tok -> tok <> "" ->
  urlparse url = Ok parsed ->
  repo_name <> "" ->
  path_resolve (workspace_path repo_name) (hworld s) = Ok path_obj ->
  indexed_repos s = (Ok repos, s1) ->
  find_indexed_path path_obj repos s1 = (Ok false, s1) ->
  build_clone_url url parsed (Some tok) = Ok clone_url ->
  (forall proc w2,
     subprocess_run argv (hworld s1) = (Ok proc, w2) ->
     returncode proc <> 0 ->
     exists msg,
       index_repository environ args s
       = (Ok (error_dict msg), HState w2 (calls s1 ++ [log; CSubprocessRun argv]))
       /\ msg = "git clone failed: " ++ py_strip (py_replace (stderr proc) tok "***")
       /\ (star ∉ chars tok -> " "%char ∉ chars tok ->
           py_in tok "git clone failed: " = false ->
           py_in tok msg = false))
  /\ (forall e w2,
        subprocess_run argv (hworld s1) = (Raise e, w2) ->
        is_TimeoutExpired e = true ->
        exists msg,
          index_repository environ args s
          = (Ok (error_dict msg), HState w2 (calls s1 ++ [log; CSubprocessRun argv]))
          /\ msg = "git clone timed out after 300 seconds for " ++ url
          /\ (" "%char ∉ chars tok ->
              py_in tok "git clone timed out after 300 seconds for " = false ->
              py_in tok url = false ->
              py_in tok msg = false)).
Proof.
  intros repo_name branch argv log Hurl Hne Htok Htne Hparse Hname Hres Hidx Hfind Hclone.
  assert (Hrun : forall r w2,
            subprocess_run argv (hworld s1) = (r, w2) ->
            index_repository_body environ url branch
              (match arg_repo_is_dependency args with Some b => b | None => false end) s
            = match r with
              | Ok proc =>
                  if negb (returncode proc =? 0)
                  then (Ok (error_dict (clone_failed_message (stderr proc) (Some tok))),
                        HState w2 (calls s1 ++ [log; CSubprocessRun argv]))
                  else index_repository_body environ url branch
                         (match arg_repo_is_dependency args with
                          | Some b => b | None => false end) s
              | Raise e => (Raise e, HState w2 (calls s1 ++ [log; CSubprocessRun argv]))
              end).
  { intros r w2 Hr. destruct r as [proc|e].
    2: { unfold index_repository_body, hquery, hcall_rw, debug_log. unfold_M.
         rewrite Hparse. simpl. fold repo_name.
         destruct (String.eqb_spec repo_name ""); [done|].
         rewrite Hres, Hidx, Hfind, Htok, Hclone. simpl.
         fold branch. fold argv. rewrite Hr. simpl.
         by rewrite <- app_assoc. }
    destruct (negb (returncode proc =? 0)) eqn:Hrc; [|done].
    unfold index_repository_body, hquery, hcall_rw, debug_log. unfold_M.
    rewrite Hparse. simpl. fold repo_name.
    destruct (String.eqb_spec repo_name ""); [done|].
    rewrite Hres, Hidx, Hfind, Htok, Hclone. simpl.
    fold branch. fold argv. rewrite Hr. simpl. rewrite Hrc.
    by rewrite <- app_assoc. }
  split.
  - intros proc w2 Hr Hrc. specialize (Hrun _ _ Hr). simpl in Hrun.
    assert (negb (returncode proc =? 0) = true) as Hnz.
    { apply negb_true_iff, Z.eqb_neq, Hrc. }
    rewrite Hnz in Hrun.
    unfold index_repository. rewrite Hurl. destruct url as [|c url]; [done|].
    fold branch. unfold_M. rewrite Hrun.
    eexists. split; [reflexivity|].
    unfold clone_failed_message. destruct tok as [|ct tok]; [done|].
    split; [reflexivity|].
    intros Hstar Hsp Hpre.
    apply (py_in_after_space _ "git clone failed:"); [done | done |].
    by apply redacted_output_hides_token.
  - intros e w2 Hr Ht. specialize (Hrun _ _ Hr). simpl in Hrun.
    unfold index_repository. rewrite Hurl. destruct url as [|c url]; [done|].
    fold branch. unfold_M. rewrite Hrun, Ht.
    eexists. split; [reflexivity|]. split; [reflexivity|].
    intros Hsp Hpre Hin.
    by apply (py_in_after_space _ "git clone timed out after 300 seconds for").
Qed.

End HandlerProperties.

(** ** Scenarios

    The properties above, instantiated on the test doubles, and the inputs
    on which two sentences of the specification fail as they are written. *)

(** The server refuses the one graph selection: [get_driver] raises, the
    driver stays cached, and the second [get_driver] returns a wrapper
    around no graph although the server would now accept. *)
Lemma get_driver_failed_select_graph_witness :
  let s := State demo_manager (MockServer 1 0) [] in
  exists s1,
    get_driver (client := mock_client) s = (Raise connection_refused, s1)
    /\ _driver (self s1) = Some demo_kwargs
    /\ _graph (self s1) = None
    /\ get_driver (client := mock_client) s1 = (Ok (Wrapper None), s1).
Proof.
  intros s.
  apply (get_driver_failed_select_graph_stays_cached (client := mock_client)
           s "simple.host" demo_settings demo_kwargs connection_refused
           (MockServer 1 0) (MockServer 1 0) (MockServer 0 0)); reflexivity.
Defined.


(** A cached graph whose liveness query is refused. *)
Lemma is_connected_witness :
  let s := State (Instance_ (Some "simple.host") (Some demo_settings) true
                            (Some demo_kwargs) (Some "codegraph"))
                 (MockServer 0 1) [] in
  exists s', is_connected (client := mock_client) s = (Ok false, s').
Proof.
  intros s.
  destruct (is_connected_never_raises (client := mock_client) s)
    as (b & s' & H1 & _ & _ & H4).
  exists s'. by rewrite H1, (H4 "codegraph" eq_refl).
Defined.

(** A port above the range. *)
Lemma validate_config_witness :
  exists msg,
    validate_config (<["FALKORDB_PORT" := "70000"]> {[ "FALKORDB_HOST" := "h" ]})
    = (false, Some msg)
    /\ py_in "70000" msg = true.
Proof.
  destruct (validate_config_spec (<["FALKORDB_PORT" := "70000"]> {[ "FALKORDB_HOST" := "h" ]}))
    as [H _].
  destruct (H "h" eq_refl) as (_ & H2 & _); [done|].
  apply (H2 70000); [reflexivity | lia].
Defined.

(** An empty environment, then one with a port that is no integer. *)
Lemma construction_witness :
  exists me cls',
    FalkorDBRemoteManager (Driver := unit) (Graph := unit) ∅ (ClassState None 0)
    = (Ok me, cls')
    /\ host me = Some "localhost"
    /\ FalkorDBRemoteManager {[ "FALKORDB_PORT" := "abc" ]} cls' = (Ok me, cls').
Proof.
  destruct (@construction_defaults_and_freezes unit unit) as (H1 & _ & H3).
  destruct (H1 ∅ (ClassState None 0) 6379) as (me & cls' & Hc & Hh & _);
    [done | reflexivity | reflexivity |].
  exists me, cls'. split; [exact Hc|]. split; [exact Hh|].
  exact (H3 ∅ _ _ _ _ Hc).
Defined.

(** The scenario of the specification: a path that does not exist. *)
Lemma add_code_to_graph_path_not_found_witness :
  exists msg,
    add_code_to_graph (collab := mock_collab (mock_listing []) None)
      (platform := demo_platform false git_ok)
      (AddCodeArgs (Some "/does/not/exist") None) (HState tt [])
    = (Ok (<["message" := VStr msg]>
           (<["status" := VStr "path_not_found"]> {[ "success" := VBool true ]})),
       HState tt [])
    /\ py_in "/does/not/exist" msg = true.
Proof.
  apply (add_code_to_graph_path_not_found
           (collab := mock_collab (mock_listing []) None)
           (platform := demo_platform false git_ok)
           _ "/does/not/exist" "/does/not/exist"); reflexivity.
Defined.

(** [./proj] is asked for while the listing holds [src/../proj]. *)
Lemma add_code_to_graph_duplicate_witness :
  exists msg,
    add_code_to_graph (collab := mock_collab (mock_listing demo_listing) None)
      (platform := demo_platform true git_ok)
      (AddCodeArgs (Some "./proj") None) (HState tt [])
    = (Ok (<["message" := VStr msg]> {[ "success" := VBool false ]}),
       HState tt [CListRepos])
    /\ py_in "already indexed" msg = true.
Proof.
  apply (add_code_to_graph_duplicate
           (collab := mock_collab (mock_listing demo_listing) None)
           (platform := demo_platform true git_ok)
           _ "./proj" "/home/dev/proj" (HState tt [])
           {[ "repositories" := VList demo_listing ]} demo_listing tt);
    try reflexivity.
  - repeat constructor; eexists; reflexivity.
  - apply Exists_cons_tl, Exists_cons_hd. reflexivity.
Defined.

(** A package whose directory carries its name. *)
Lemma add_package_to_graph_duplicate_witness :
  let listing := [mock_record requests_path "requests" true] in
  exists msg,
    add_package_to_graph (collab := mock_collab (mock_listing listing) (Some requests_path))
      (platform := demo_platform true git_ok)
      (AddPackageArgs (Some "requests") (Some "python") None) (HState tt [])
    = (Ok (<["message" := VStr msg]> {[ "success" := VBool false ]}),
       HState tt [CListRepos])
    /\ py_in "already indexed" msg = true.
Proof.
  intros listing.
  apply (add_package_to_graph_duplicate_by_name
           (collab := mock_collab (mock_listing listing) (Some requests_path))
           (platform := demo_platform true git_ok)
           _ "requests" "python" (HState tt [])
           {[ "repositories" := VList listing ]} listing tt);
    try done.
  - repeat constructor. by eexists.
  - apply Exists_cons_hd. eexists _, (VBool true).
    split; [reflexivity|]. split; [reflexivity|]. split; [reflexivity|].
    left. reflexivity.
Defined.

(** C3 as stated fails: the listing holds the record of the very directory
    the resolver finds for ["@babel/core"], flagged as a dependency, under
    the name ["core"] of that directory; the call does not see it,
    reaches the estimator and creates a second job. *)
Lemma add_package_to_graph_same_path_counterexample :
  let listing := [mock_record babel_path "core" true] in
  let platform := demo_platform true git_ok in
  let r := add_package_to_graph
             (collab := mock_collab (mock_listing listing) (Some babel_path))
             (platform := platform)
             (AddPackageArgs (Some "@babel/core") (Some "javascript") None)
             (HState tt []) in
  resolved_path (platform := platform) (mock_record babel_path "core" true) tt
  = Ok babel_path
  /\ r.1 = Ok (<["instructions" :=
                  VStr "Use 'check_job_status' with job_id 'job-1' to monitor progress"]>
               (<["estimated_duration_human" := VStr "1m 30s"]>
                (<["estimated_duration_seconds" := VInt 90]>
                 (<["estimated_files" := VInt 10]>
                  (<["message" :=
                       VStr "Background processing started for package '@babel/core'"]>
                   (<["discovered_path" := VStr babel_path]>
                    (<["package_name" := VStr "@babel/core"]>
                     (<["job_id" := VStr "job-1"]>
                      {[ "success" := VBool true ]}))))))))
  /\ calls r.2
     = [CListRepos; CLocatePackage (Some "@babel/core") "javascript";
        CEstimate babel_path; CCreateJob babel_path true;
        CUpdateJob "job-1" (VInt 10) (VInt 90);
        CBuildCoroutine babel_path true "job-1"; CSubmit;
        CDebugLog "Started background job job-1 for package: @babel/core at /usr/lib/node_modules/@babel/core, is_dependency: True"].
Proof. repeat split; vm_compute; reflexivity. Qed.

(** The repository name of the scenario of the specification. *)
Example derive_repo_name_example : derive_repo_name "/org/myrepo.git" = "myrepo".
Proof. vm_compute. reflexivity. Qed.

Example derive_repo_name_trailing_slash : derive_repo_name "/org/myrepo/" = "myrepo".
Proof. vm_compute. reflexivity. Qed.

Example derive_repo_name_empty : derive_repo_name "/" = "".
Proof. vm_compute. reflexivity. Qed.

(** A token of the usual shape, echoed by [git] in its error output. *)
Lemma index_repository_clone_failure_witness :
  index_repository (collab := mock_collab (mock_listing []) None)
    (platform := demo_platform true (git_failed demo_stderr))
    {[ "GIT_TOKEN" := demo_token ]} demo_clone_args (HState tt [])
  = (Ok (error_dict demo_redacted),
     HState tt [CListRepos; demo_clone_log; CSubprocessRun demo_argv])
  /\ py_in demo_token demo_redacted = false.
Proof.
  destruct (index_repository_clone_failure
              (collab := mock_collab (mock_listing []) None)
              (platform := demo_platform true (git_failed demo_stderr))
              {[ "GIT_TOKEN" := demo_token ]} demo_clone_args demo_url demo_token
              (ParsedUrl "https" (Some "example.com") (Ok None) "/org/myrepo.git")
              "/workspace/myrepo" "https://ghp_s3cr3t@example.com/org/myrepo.git"
              [] (HState tt []) (HState tt [CListRepos]))
    as [H _].
  1,3,5,7,8,9,10: vm_compute; reflexivity.
  1,2,3: discriminate.
  destruct (H (CompletedProcess 128 demo_stderr) tt) as (msg & Hr & Hm & Hin).
  { vm_compute; reflexivity. }
  { discriminate. }
  assert (msg = demo_redacted) as -> by (rewrite Hm; vm_compute; reflexivity).
  split; [exact Hr|].
  apply Hin.
  - apply (bool_decide_eq_true_1 _). vm_compute. reflexivity.
  - apply (bool_decide_eq_true_1 _). vm_compute. reflexivity.
  - vm_compute. reflexivity.
Defined.

(** The text of the timeout names the URL as given, although the
    exception carries the command line with the token. *)
Example index_repository_timeout :
  index_repository (collab := mock_collab (mock_listing []) None)
    (platform := demo_platform true
                   (Raise (Exn TimeoutExpired
                             "Command '['git', 'clone', '--depth', '1', '--branch', 'main', 'https://ghp_s3cr3t@example.com/org/myrepo.git', '/workspace/myrepo']' timed out after 300 seconds")))
    {[ "GIT_TOKEN" := demo_token ]} demo_clone_args (HState tt [])
  = (Ok (error_dict "git clone timed out after 300 seconds for https://example.com/org/myrepo.git"),
     HState tt [CListRepos;
       CDebugLog "Cloning https://example.com/org/myrepo.git (branch: main) into /workspace/myrepo";
       CSubprocessRun demo_argv]).
Proof. vm_compute. reflexivity. Qed.

(** C4 as stated fails: with the token ["pw*"] and an error output that
    ends in ["pwpw*"], the replacement turns the output into one that
    ends in ["pw***"], in which the token occurs. *)
Lemma index_repository_redaction_counterexample :
  let token := "pw*" in
  let r := index_repository (collab := mock_collab (mock_listing []) None)
             (platform := demo_platform true
                            (git_failed "remote: invalid credentials for pwpw*"))
             {[ "GIT_TOKEN" := token ]} demo_clone_args (HState tt []) in
  r.1 = Ok (error_dict "git clone failed: remote: invalid credentials for pw***")
  /\ py_in token "git clone failed: remote: invalid credentials for pw***" = true.
Proof. split; vm_compute; reflexivity. Qed.

(** A token that occurs in the fixed text of the message occurs in the
    returned text as well. *)
Example index_repository_token_in_fixed_text :
  let token := "clone" in
  let r := index_repository (collab := mock_collab (mock_listing []) None)
             (platform := demo_platform true (git_failed "fatal: repository not found"))
             {[ "GIT_TOKEN" := token ]} demo_clone_args (HState tt []) in
  r.1 = Ok (error_dict "git clone failed: fatal: repository not found")
  /\ py_in token "git clone failed: fatal: repository not found" = true.
Proof. split; vm_compute; reflexivity. Qed.

(** A call without a path: [Path(None)] raises [TypeError]. *)
Lemma handlers_never_raise_witness :
  exists s',
    add_code_to_graph (collab := mock_collab (mock_listing []) None)
      (platform := demo_platform true git_ok)
      (AddCodeArgs None None) (HState tt [])
    = (Ok {[ "error" :=
               VStr "Failed to start background processing: expected str, bytes or os.PathLike object" ]},
       s').
Proof.
  destruct (handlers_never_raise (collab := mock_collab (mock_listing []) None)
              (platform := demo_platform true git_ok)) as (_ & H & _).
  destruct (H (AddCodeArgs None None) (HState tt [])) as (d & s' & Hr & He).
  exists s'. rewrite Hr. f_equal. f_equal.
  by apply (He (Exn TypeError "expected str, bytes or os.PathLike object") (HState tt [])).
Defined.

(** ** Further properties of [FalkorDBRemoteManager] *)

Section ManagerExtras.
Context {W Driver Graph : Type} {client : FalkorDBClient W Driver Graph}.

(** What a successful [get_driver] on a manager without driver went
    through. *)
Lemma get_driver_connect_inv (s s1 : state) (wr : FalkorDBDriverWrapper Graph) :
  _driver (self s) = None ->
  get_driver s = (Ok wr, s1) ->
  exists h cfg d g w1 w2 w3 w4,
    host (self s) = Some h /\ config (self s) = Some cfg
    /\ import_falkordb (world s) = (Ok tt, w1)
    /\ FalkorDB (get_driver_kwargs h cfg) w1 = (Ok d, w2)
    /\ select_graph d (graph_name cfg) w2 = (Ok g, w3)
    /\ query g "RETURN 1" w3 = (Ok tt, w4)
    /\ wr = Wrapper (Some g)
    /\ s1 = State (Instance_ (Some h) (Some cfg) (_initialized (self s)) (Some d) (Some g))
                  w4 (trace s ++ connect_events h cfg).
Proof.
  intros Hd. unfold get_driver, connect, attr, call, emit, set_driver, set_graph.
  unfold_M. rewrite Hd. simpl.
  destruct (import_falkordb (world s)) as [[[]|e] w1] eqn:Hi; simpl.
  2: { destruct (is_ImportError e); simpl; discriminate. }
  destruct (host (self s)) as [h|] eqn:Hh; simpl; [|discriminate].
  destruct (config (self s)) as [cfg|] eqn:Hc; simpl; [|discriminate].
  destruct (FalkorDB (get_driver_kwargs h cfg) w1) as [[d|e] w2] eqn:Hf; simpl.
  2: { destruct (is_ImportError e); simpl; discriminate. }
  destruct (select_graph d (graph_name cfg) w2) as [[g|e] w3] eqn:Hs; simpl.
  2: { destruct (is_ImportError e); simpl; discriminate. }
  destruct (query g "RETURN 1" w3) as [[[]|e] w4] eqn:Hq; simpl.
  2: { destruct (is_ImportError e); simpl; discriminate. }
  intros [= <- <-]. exists h, cfg, d, g, w1, w2, w3, w4.
  repeat split; try done.
  rewrite Hh, Hc. f_equal. unfold connect_events. by rewrite <- !app_assoc.
Qed.

(** X1. Once [get_driver] has returned a wrapper, the next [get_driver]
    returns the same wrapper and leaves the state as it is: it makes no
    call to the client library, so that the constructor is called at
    most once for any number of calls. *)
Theorem get_driver_reuses_connection (s s1 : state) (wr : FalkorDBDriverWrapper Graph) :
  get_driver s = (Ok wr, s1) ->
  get_driver s1 = (Ok wr, s1).
Proof.
  intros H. destruct (_driver (self s)) as [d|] eqn:Hd.
  - rewrite (get_driver_cached s d Hd) in H. injection H as <- <-.
    by apply get_driver_cached with d.
  - apply get_driver_connect_inv in H as (h & cfg & d & g & ? & ? & ? & ? & _ & _ & _ & _ & _ & _ & -> & ->);
      [|done].
    by rewrite (get_driver_cached _ d).
Qed.

(** X2. A [get_driver] that succeeds on a manager without driver has
    imported the client, called the constructor, selected the configured
    graph and run the liveness query ["RETURN 1"] on it, in this order;
    driver and graph are then cached and the wrapper holds that graph. *)
Theorem get_driver_success_probes (s s1 : state) (wr : FalkorDBDriverWrapper Graph) :
  _driver (self s) = None ->
  get_driver s = (Ok wr, s1) ->
  exists h cfg d g,
    host (self s) = Some h /\ config (self s) = Some cfg
    /\ _driver (self s1) = Some d /\ _graph (self s1) = Some g
    /\ wr = Wrapper (Some g)
    /\ trace s1 = (trace s ++ connect_events h cfg)%list
    /\ exists w3 w4, query g "RETURN 1" w3 = (Ok tt, w4) /\ world s1 = w4.
Proof.
  intros Hd H.
  apply get_driver_connect_inv in H as (h & cfg & d & g & w1 & w2 & w3 & w4 & Hh & Hc & _ & _ & _ & Hq & -> & ->);
    [|done].
  exists h, cfg, d, g. repeat split; try done. by exists w3, w4.
Qed.

(** X3. [get_driver] never raises an [ImportError]: an [ImportError]
    raised anywhere in its [try] block, by the import or by a call of the
    client, comes out as [ValueError("FalkorDB client missing.")], and
    every other exception comes out as it is. *)
Theorem get_driver_never_raises_ImportError (s s' : state) (e : exn) :
  get_driver s = (Raise e, s') ->
  is_ImportError e = false
  /\ (forall e0 s0, connect s = (Raise e0, s0) ->
        e = if is_ImportError e0 then Exn ValueError "FalkorDB client missing." else e0).
Proof.
  unfold get_driver. unfold_M.
  destruct (_driver (self s)); [discriminate|].
  destruct (connect s) as [[[]|e0] s0] eqn:Hc; [discriminate|].
  unfold emit. unfold_M.
  destruct (is_ImportError e0) eqn:He; simpl; intros [= <- _].
  - split; [done|]. by intros ? ? [= <- _]; rewrite He.
  - split; [done|]. by intros ? ? [= <- _]; rewrite He.
Qed.

(** X4. [close_driver] makes no call to the client and can be repeated;
    after it [is_connected] answers [False] without a query, and a
    [get_driver] that then succeeds has called the constructor once
    more, with the same keyword arguments, and caches a graph again. *)
Theorem get_driver_reconnects_after_close (s s0 s1 : state) (h : string)
    (cfg : settings) (wr : FalkorDBDriverWrapper Graph) :
  host (self s) = Some h ->
  config (self s) = Some cfg ->
  close_driver s = (Ok tt, s0) ->
  get_driver s0 = (Ok wr, s1) ->
  trace s0 = trace s
  /\ close_driver s0 = (Ok tt, s0)
  /\ is_connected s0 = (Ok false, s0)
  /\ construct_calls (trace s1)
     = (construct_calls (trace s) ++ [get_driver_kwargs h cfg])%list
  /\ exists g, wr = Wrapper (Some g) /\ _graph (self s1) = Some g.
Proof.
  intros Hh Hc [= <-] Hg. split; [done|]. split; [done|]. split; [done|].
  apply get_driver_connect_inv in Hg
    as (h' & cfg' & d & g & ? & ? & ? & ? & Hh' & Hc' & _ & _ & _ & _ & -> & ->); [|done].
  simpl in Hh', Hc'. rewrite Hh in Hh'. rewrite Hc in Hc'.
  injection Hh' as <-. injection Hc' as <-. split.
  - simpl. rewrite construct_calls_app. reflexivity.
  - by exists g.
Qed.

(** *** Construction and validation *)

Lemma validate_config_true_inv (env : gmap string string) :
  validate_config env = (true, None) ->
  exists h p,
    env !! "FALKORDB_HOST" = Some h /\ h <> ""
    /\ py_int (getenv_default env "FALKORDB_PORT" "6379") = Ok p
    /\ 1 <= p <= 65535.
Proof.
  unfold validate_config.
  destruct (env !! "FALKORDB_HOST") as [[|c h]|] eqn:Hh; [done| |done].
  destruct (parse_int_chars _) as [p|] eqn:Hp; [|done].
  destruct ((1 <=? p) && (p <=? 65535)) eqn:Hr; [|done].
  intros _. exists (String c h), p. split; [done|]. split; [done|].
  split; [by apply py_int_Ok|].
  apply andb_true_iff in Hr as [H1 H2]. apply Z.leb_le in H1, H2. lia.
Qed.

(** X5. An environment that [validate_config] accepts is one on which the
    first construction does not raise: the manager gets the host of the
    environment and a port between 1 and 65535, and it is the object
    kept in [_instance]. *)
Theorem validate_config_implies_construction (env : gmap string string) (n : nat) :
  validate_config env = (true, None) ->
  exists me cls' h cfg,
    FalkorDBRemoteManager (Driver := Driver) (Graph := Graph) env (ClassState None n)
    = (Ok me, cls')
    /\ env !! "FALKORDB_HOST" = Some h /\ host me = Some h
    /\ config me = Some cfg /\ 1 <= port cfg <= 65535
    /\ _instance cls' = Some me.
Proof.
  intros (h & p & Hh & _ & Hp & Hr)%validate_config_true_inv.
  unfold FalkorDBRemoteManager, new, init. simpl. rewrite Hp.
  eexists _, _, h, _. split; [reflexivity|]. simpl.
  unfold getenv_default at 1. rewrite Hh.
  split; [done|]. split; [done|]. split; [reflexivity|]. split; [exact Hr|done].
Qed.

(** X6. [__init__] checks no range: with a port text that is an integer
    outside 1..65535, which [validate_config] rejects, the construction
    succeeds and [get_driver] would pass that port to the client. *)
Theorem construction_accepts_any_integer_port (env : gmap string string)
    (h : string) (p : Z) (n : nat) :
  env !! "FALKORDB_HOST" = Some h -> h <> "" ->
  py_int (getenv_default env "FALKORDB_PORT" "6379") = Ok p ->
  ~ (1 <= p <= 65535) ->
  (validate_config env).1 = false
  /\ exists me cls' cfg,
       FalkorDBRemoteManager (Driver := Driver) (Graph := Graph) env (ClassState None n)
       = (Ok me, cls')
       /\ config me = Some cfg /\ port cfg = p
       /\ get_driver_kwargs h cfg !! "port" = Some (VInt p).
Proof.
  intros Hh Hne Hp Hr. split.
  - unfold validate_config. rewrite Hh. destruct h as [|c h]; [done|].
    apply py_int_Ok in Hp. rewrite Hp.
    destruct ((1 <=? p) && (p <=? 65535)) eqn:E; [|done].
    apply andb_true_iff in E as [H1 H2]. apply Z.leb_le in H1, H2. lia.
  - unfold FalkorDBRemoteManager, new, init. simpl. rewrite Hp.
    eexists _, _, _. split; [reflexivity|]. simpl. split; [reflexivity|].
    split; [reflexivity|].
    by destruct (get_driver_kwargs_lookup h
                   (Settings p (or_None (env !! "FALKORDB_PASSWORD"))
                      (or_None (env !! "FALKORDB_USERNAME"))
                      (in_truthy_words (py_lower (getenv_default env "FALKORDB_SSL" "false")))
                      (getenv_default env "FALKORDB_GRAPH_NAME" "codegraph")))
      as (_ & H2 & _).
Qed.

Lemma construction_keeps_registered_once (env : gmap string string)
    (cls : class_state Driver Graph) :
  registered_once cls -> registered_once (FalkorDBRemoteManager env cls).2.
Proof.
  unfold registered_once, FalkorDBRemoteManager, new, init.
  destruct (_instance cls) as [i|] eqn:Hi; simpl.
  - destruct (_initialized i) eqn:Hinit; simpl; [by rewrite Hinit|].
    destruct (py_int _); simpl; intros ->; done.
  - rewrite ?Hi. destruct (py_int _); simpl; intros ->; done.
Qed.

(** X7. However many constructions are attempted, and whatever the
    environment holds at each, [shutdown] is registered with [atexit] at
    most once; it is registered exactly when the object is initialised. *)
Theorem atexit_registered_at_most_once (envs : list (gmap string string)) :
  let cls := construct_all (Driver := Driver) (Graph := Graph) envs (ClassState None 0) in
  (atexit_registered cls <= 1)%nat
  /\ (atexit_registered cls = 1%nat <->
      exists i, _instance cls = Some i /\ _initialized i = true).
Proof.
  intros cls.
  assert (registered_once cls) as H.
  { subst cls. generalize (ClassState (Driver := Driver) (Graph := Graph) None 0),
      (eq_refl : registered_once (ClassState (Driver := Driver) (Graph := Graph) None 0)).
    induction envs as [|env envs IH]; intros c Hc; simpl; [done|].
    apply IH. by apply construction_keeps_registered_once. }
  unfold registered_once in H. rewrite H.
  destruct (_instance cls) as [i|]; [destruct (_initialized i) eqn:E|].
  - split; [lia|]. split; [by exists i | done].
  - split; [lia|]. split; [done|]. intros (j & [= <-] & ?). congruence.
  - split; [lia|]. split; [done|]. by intros (j & ? & ?).
Qed.

(** *** [test_connection] *)

(** X8. [test_connection] leaves the attributes of the manager, cached
    driver and graph included, as they are, whatever its outcome. *)
Theorem test_connection_leaves_cache (env : gmap string string) (s s' : state)
    (r : result (bool * option string)) :
  test_connection env s = (r, s') -> self s' = self s.
Proof.
  unfold test_connection, call. unfold_M.
  destruct (import_falkordb (world s)) as [[[]|e] w1]; simpl.
  2: { destruct (is_ImportError e); simpl; by intros [= _ <-]. }
  destruct (env !! "FALKORDB_HOST") as [[|c h]|]; simpl; try by intros [= _ <-].
  destruct (py_int _) as [p|e]; simpl; [|by intros [= _ <-]].
  destruct (FalkorDB _ w1) as [[d|e] w2]; simpl; [|by intros [= _ <-]].
  destruct (select_graph d _ w2) as [[g|e] w3]; simpl; [|by intros [= _ <-]].
  destruct (query g _ w3) as [[[]|e] w4]; simpl; by intros [= _ <-].
Qed.

(** X9. With the client importable, a non-empty host and a port text that
    is an integer, [test_connection] does not raise; it answers
    [(True, None)] exactly when constructor, graph selection and
    liveness query all succeed, and otherwise [(False, "Connection
    failed: ...")] with the text of the exception raised by the first of
    the three that fails. *)
Theorem test_connection_outcomes (env : gmap string string) (s : state)
    (h : string) (p : Z) (w1 : W) :
  import_falkordb (world s) = (Ok tt, w1) ->
  env !! "FALKORDB_HOST" = Some h -> h <> "" ->
  py_int (getenv_default env "FALKORDB_PORT" "6379") = Ok p ->
  let cfg :=
    Settings p (or_None (env !! "FALKORDB_PASSWORD"))
      (or_None (env !! "FALKORDB_USERNAME"))
      (in_truthy_words (py_lower (getenv_default env "FALKORDB_SSL" "false")))
      (getenv_default env "FALKORDB_GRAPH_NAME" "codegraph") in
  let connects :=
    exists d g w2 w3 w4,
      FalkorDB (get_driver_kwargs h cfg) w1 = (Ok d, w2)
      /\ select_graph d (graph_name cfg) w2 = (Ok g, w3)
      /\ query g "RETURN 1" w3 = (Ok tt, w4) in
  exists b msg s',
    test_connection env s = (Ok (b, msg), s')
    /\ (b = true <-> connects)
    /\ (b = true -> msg = None)
    /\ (forall e w2,
          FalkorDB (get_driver_kwargs h cfg) w1 = (Raise e, w2) ->
          msg = Some ("Connection failed: " ++ exn_str e))
    /\ (forall d w2 e w3,
          FalkorDB (get_driver_kwargs h cfg) w1 = (Ok d, w2) ->
          select_graph d (graph_name cfg) w2 = (Raise e, w3) ->
          msg = Some ("Connection failed: " ++ exn_str e))
    /\ (forall d w2 g w3 e w4,
          FalkorDB (get_driver_kwargs h cfg) w1 = (Ok d, w2) ->
          select_graph d (graph_name cfg) w2 = (Ok g, w3) ->
          query g "RETURN 1" w3 = (Raise e, w4) ->
          msg = Some ("Connection failed: " ++ exn_str e)).
Proof.
  intros Hi Hh Hne Hp cfg connects. subst connects.
  unfold test_connection, call. unfold_M. rewrite Hi. simpl. rewrite Hh.
  destruct h as [|c h]; [done|]. rewrite Hp. simpl. fold cfg.
  change (graph_name cfg) with (getenv_default env "FALKORDB_GRAPH_NAME" "codegraph").
  destruct (FalkorDB (get_driver_kwargs (String c h) cfg) w1) as [[d|e] w2] eqn:Hf; simpl.
  2: { eexists false, _, _. split; [reflexivity|]. split; [split; [done|]|].
       - intros (? & ? & ? & ? & ? & [=] & _).
       - split; [done|]. split; [by intros ? ? [= <- _]|]. split; by intros. }
  destruct (select_graph d _ w2) as [[g|e] w3] eqn:Hs; simpl.
  2: { eexists false, _, _. split; [reflexivity|]. split; [split; [done|]|].
       - intros (? & ? & ? & ? & ? & [= <- <-] & Hs' & _). congruence.
       - split; [done|]. split; [by intros|]. split.
         + intros ? ? ? ? [= <- <-] Hs'. rewrite Hs in Hs'. by injection Hs' as <- _.
         + intros ? ? ? ? ? ? [= <- <-] Hs'. congruence. }
  destruct (query g "RETURN 1" w3) as [[[]|e] w4] eqn:Hq; simpl.
  2: { eexists false, _, _. split; [reflexivity|]. split; [split; [done|]|].
       - intros (? & ? & ? & ? & ? & [= <- <-] & Hs' & Hq').
         rewrite Hs in Hs'. injection Hs' as <- <-. congruence.
       - split; [done|]. split; [by intros|]. split.
         + intros ? ? ? ? [= <- <-] Hs'. congruence.
         + intros ? ? ? ? ? ? [= <- <-] Hs' Hq'.
           rewrite Hs in Hs'. injection Hs' as <- <-.
           rewrite Hq in Hq'. by injection Hq' as <- _. }
  eexists true, _, _. split; [reflexivity|]. split; [split; [|done]|].
  - intros _. by exists d, g, w2, w3, w4.
  - split; [done|]. split; [by intros|]. split.
    + intros ? ? ? ? [= <- <-] Hs'. congruence.
    + intros ? ? ? ? ? ? [= <- <-] Hs' Hq'.
      rewrite Hs in Hs'. injection Hs' as <- <-. congruence.
Qed.

(** X10. The conversion of the port in [test_connection] is outside its
    [try] blocks: with a port text that [int] refuses (and a host),
    [test_connection] raises the [ValueError] of [int], with the message
    of [int] for that text, after the import and before any connection,
    where [validate_config] answers [False] with a message. *)
Theorem test_connection_bad_port_raises (env : gmap string string) (s : state)
    (h : string) (e : exn) (w1 : W) :
  import_falkordb (world s) = (Ok tt, w1) ->
  env !! "FALKORDB_HOST" = Some h -> h <> "" ->
  py_int (getenv_default env "FALKORDB_PORT" "6379") = Raise e ->
  test_connection env s = (Raise e, State (self s) w1 (trace s ++ [EImport]))
  /\ e = int_ValueError (getenv_default env "FALKORDB_PORT" "6379")
  /\ exn_cls e = ValueError
  /\ validate_config env
     = (false, Some ("FALKORDB_PORT must be a number, got '"
                     ++ getenv_default env "FALKORDB_PORT" "6379" ++ "'.")).
Proof.
  intros Hi Hh Hne Hp. split; [|split; [|split]].
  - unfold test_connection, call. unfold_M. rewrite Hi. simpl. rewrite Hh.
    destruct h as [|c h]; [done|]. by rewrite Hp.
  - by apply py_int_Raise in Hp as [_ ->].
  - by apply py_int_Raise in Hp as [_ ->].
  - unfold validate_config. rewrite Hh. destruct h as [|c h]; [done|].
    by apply py_int_Raise in Hp as [-> _].
Qed.

End ManagerExtras.

(** ** The repository name *)

Lemma str_chars (s : string) : str (chars s) = s.
Proof. apply string_of_list_ascii_of_string. Qed.

Lemma last_segment_chars_no_slash (acc l : list ascii) :
  slash ∉ acc -> slash ∉ last_segment_chars acc l.
Proof.
  revert acc. induction l as [|c l IH]; intros acc Hacc; simpl; [done|].
  destruct (Ascii.eqb_spec c "/") as [->|Hc].
  - apply IH. by apply not_elem_of_nil.
  - apply IH. rewrite elem_of_app, list_elem_of_singleton.
    intros [?|?]; [done|]. by apply Hc.
Qed.

Lemma last_segment_chars_plain (acc l : list ascii) :
  slash ∉ l -> last_segment_chars acc l = (acc ++ l)%list.
Proof.
  revert acc. induction l as [|c l IH]; intros acc Hl; simpl.
  - by rewrite app_nil_r.
  - apply not_elem_of_cons in Hl as [Hc Hl].
    destruct (Ascii.eqb_spec c "/") as [->|_]; [done|].
    rewrite IH by done. by rewrite <- app_assoc.
Qed.

Lemma last_segment_chars_after_slash (acc dir name : list ascii) :
  slash ∉ name -> last_segment_chars acc (dir ++ slash :: name) = name.
Proof.
  intros Hn. revert acc. induction dir as [|c dir IH]; intros acc; simpl.
  - by rewrite last_segment_chars_plain.
  - destruct (Ascii.eqb c "/"); apply IH.
Qed.

Lemma lstrip_char_all (c : ascii) (l : list ascii) :
  Forall (eq c) l -> lstrip_char c l = [].
Proof.
  induction 1 as [|x l <- _ IH]; [done|]. simpl. by rewrite Ascii.eqb_refl.
Qed.

Lemma rstrip_slash_snoc_slash (s : string) : rstrip_slash (s ++ "/") = rstrip_slash s.
Proof.
  unfold rstrip_slash. rewrite chars_app. change (chars "/") with [slash].
  by rewrite rev_app_distr.
Qed.

Lemma rstrip_slash_no_trailing (l : list ascii) (c : ascii) :
  c <> slash -> rstrip_slash (str (l ++ [c])) = str (l ++ [c]).
Proof.
  intros Hc. unfold rstrip_slash. rewrite chars_str, rev_app_distr. simpl.
  destruct (Ascii.eqb_spec c "/") as [->|_]; [done|].
  simpl. by rewrite rev_involutive.
Qed.

Lemma is_prefix_app (p x : list ascii) : is_prefix p (p ++ x) = true.
Proof. apply is_prefix_spec. by exists x. Qed.

(** X11. The repository name derived from a URL path never contains a
    slash, so that the clone directory is a direct child of
    [/workspace]. *)
Theorem derive_repo_name_no_slash (url_path : string) :
  slash ∉ chars (derive_repo_name url_path).
Proof.
  unfold derive_repo_name, last_segment.
  set (seg := last_segment_chars [] (chars (rstrip_slash url_path))).
  assert (slash ∉ seg) as Hseg.
  { apply last_segment_chars_no_slash, not_elem_of_nil. }
  destruct (py_endswith (str seg) ".git"); [|by rewrite chars_str].
  unfold drop_last4. rewrite !chars_str.
  intros (i & Hi & _)%elem_of_take. apply Hseg. by eapply list_elem_of_lookup_2.
Qed.

(** A path of slashes only yields no name. *)
Lemma derive_repo_name_only_slashes (url_path : string) :
  Forall (eq slash) (chars url_path) -> derive_repo_name url_path = "".
Proof.
  intros H. unfold derive_repo_name, last_segment, rstrip_slash.
  rewrite lstrip_char_all; [done|]. by apply Forall_rev.
Qed.

(** X12. For a path [dir/name.git], where [name] is not empty and holds
    no slash, the derived repository name is [name]; for [dir/name]
    where [name] does not end in [.git] it is [name] as well; a trailing
    slash changes nothing. *)
Theorem derive_repo_name_of_git_url (dir name : string) :
  slash ∉ chars name ->
  name <> "" ->
  derive_repo_name (dir ++ "/" ++ name ++ ".git") = name
  /\ (py_endswith name ".git" = false -> derive_repo_name (dir ++ "/" ++ name) = name)
  /\ derive_repo_name (dir ++ "/" ++ name ++ "/") = derive_repo_name (dir ++ "/" ++ name).
Proof.
  intros Hslash Hne.
  assert (Hseg : forall tail : string,
             slash ∉ chars tail -> tail <> "" ->
             last_segment (rstrip_slash (dir ++ "/" ++ tail)) = tail).
  { intros tail Ht Htne.
    destruct (exists_last (chars_nonempty tail Htne)) as (l & c & Hl).
    assert (c <> slash) as Hc.
    { intros ->. apply Ht. rewrite Hl. apply elem_of_app. right. by left. }
    replace (dir ++ "/" ++ tail) with (str ((chars dir ++ slash :: l) ++ [c])).
    2: { rewrite <- app_assoc. simpl. rewrite <- Hl.
         change (slash :: chars tail) with (chars "/" ++ chars tail)%list.
         by rewrite <- !chars_app, str_chars. }
    rewrite rstrip_slash_no_trailing by done.
    unfold last_segment. rewrite chars_str, <- app_assoc. simpl. rewrite <- Hl.
    rewrite last_segment_chars_after_slash by done. apply str_chars. }
  split; [|split].
  - unfold derive_repo_name. rewrite (Hseg (name ++ ".git")).
    + assert (py_endswith (name ++ ".git") ".git" = true) as ->.
      { unfold py_endswith. rewrite chars_app, rev_app_distr. apply is_prefix_app. }
      unfold drop_last4. rewrite chars_app, length_app. simpl.
      replace (length (chars name) + 4 - 4)%nat with (length (chars name)) by lia.
      rewrite take_app_length. apply str_chars.
    + rewrite chars_app. rewrite elem_of_app. intros [H|H]; [done|].
      vm_compute in H. set_solver.
    + by destruct name.
  - intros Hend. unfold derive_repo_name. rewrite (Hseg name) by done. by rewrite Hend.
  - unfold derive_repo_name.
    replace (dir ++ "/" ++ name ++ "/") with ((dir ++ "/" ++ name) ++ "/").
    + by rewrite rstrip_slash_snoc_slash.
    + rewrite <- (str_chars ((dir ++ "/" ++ name) ++ "/")),
        <- (str_chars (dir ++ "/" ++ name ++ "/")).
      f_equal. rewrite !chars_app. by rewrite <- !app_assoc.
Qed.

(** ** Further properties of the indexing handlers *)

Section HandlerExtras.
Context {W Coro : Type} {collab : Collaborators W Coro} {platform : Platform W}.

Lemma indexed_repos_inv (s s1 : hstate) (r : result (list value)) :
  indexed_repos s = (r, s1) ->
  exists w', s1 = HState w' (calls s ++ [CListRepos]).
Proof.
  unfold indexed_repos, hcall_rw. unfold_M.
  destruct (list_repos_func (hworld s)) as [[v|e] w']; simpl.
  - destruct (py_get v "repositories" (VList [])) as [x|e]; simpl;
      [destruct (py_iter x)|]; intros [= _ <-]; by exists w'.
  - intros [= _ <-]. by exists w'.
Qed.

Lemma start_job_inv (q jp : string) (dep : bool) (s s' : hstate)
    (r : result (string * value * value)) :
  start_job q jp dep s = (r, s') ->
  exists id f t l,
    calls s' = (calls s ++ l)%list
    /\ l `prefix_of` job_calls q jp dep id f t
    /\ l <> []
    /\ (forall v, r = Ok v -> v = (id, f, t) /\ l = job_calls q jp dep id f t).
Proof.
  unfold start_job, hcall_rw. unfold_M.
  destruct (estimate_processing_time q (hworld s)) as [[est|e] w1]; simpl.
  2: { intros [= <- <-]. exists "", VNone, VNone, [CEstimate q]. simpl.
       split; [done|]. split; [by eexists|]. by split. }
  destruct (unpack2 est) as [[f t]|e]; simpl.
  2: { intros [= <- <-]. exists "", VNone, VNone, [CEstimate q]. simpl.
       split; [done|]. split; [by eexists|]. by split. }
  destruct (create_job jp dep w1) as [[id|e] w2]; simpl.
  2: { intros [= <- <-]. exists "", f, t, [CEstimate q; CCreateJob jp dep]. simpl.
       split; [by rewrite <- app_assoc|]. split; [by eexists|]. by split. }
  destruct (update_job id f t w2) as [[[]|e] w3]; simpl.
  2: { intros [= <- <-].
       exists id, f, t, [CEstimate q; CCreateJob jp dep; CUpdateJob id f t]. simpl.
       split; [by rewrite <- !app_assoc|]. split; [by eexists|]. by split. }
  destruct (build_graph_from_path_async q dep id w3) as [[coro|e] w4]; simpl.
  2: { intros [= <- <-].
       exists id, f, t, [CEstimate q; CCreateJob jp dep; CUpdateJob id f t;
                         CBuildCoroutine q dep id]. simpl.
       split; [by rewrite <- !app_assoc|]. split; [by eexists|]. by split. }
  destruct (run_coroutine_threadsafe coro w4) as [[[]|e] w5]; simpl.
  2: { intros [= <- <-]. exists id, f, t, (job_calls q jp dep id f t). simpl.
       split; [by rewrite <- !app_assoc|]. split; [done|]. by split. }
  intros [= <- <-]. exists id, f, t, (job_calls q jp dep id f t). simpl.
  split; [by rewrite <- !app_assoc|]. split; [done|]. split; [done|].
  by intros v [= <-].
Qed.

(** X13. In every run, the job calls shared by the three handlers are an
    initial part of: estimate, create job, update job, build the
    coroutine, submit. Nothing is submitted unless all four calls before
    it were made, and the step returns only after the submission. *)
Theorem start_job_order (q jp : string) (dep : bool) (s s' : hstate)
    (r : result (string * value * value)) :
  start_job q jp dep s = (r, s') ->
  exists id f t l,
    calls s' = (calls s ++ l)%list
    /\ l `prefix_of` job_calls q jp dep id f t
    /\ (CSubmit ∈ l -> l = job_calls q jp dep id f t)
    /\ (forall v, r = Ok v -> v = (id, f, t) /\ l = job_calls q jp dep id f t).
Proof.
  intros H. destruct (start_job_inv _ _ _ _ _ _ H) as (id & f & t & l & Hc & Hp & _ & Hok).
  exists id, f, t, l. split; [done|]. split; [done|]. split; [|done].
  intros Hin. destruct Hp as [k Hk].
  assert (k = []) as ->; [|by rewrite app_nil_r in Hk].
  unfold job_calls in Hk.
  do 5 (destruct l as [|? l];
        [exfalso; simpl in Hk; subst;
         repeat (apply elem_of_cons in Hin as [Hin|Hin]; [discriminate|]);
         by apply elem_of_nil in Hin
        |injection Hk as <- Hk]).
  destruct l; [by destruct k | done].
Qed.


Lemma with_estimate_lookup (id : string) (f t : value) (d0 d : gmap string value)
    (k : string) :
  with_estimate id f t d0 = Ok d ->
  k ∉ ["instructions"; "estimated_duration_human"; "estimated_duration_seconds";
       "estimated_files"] ->
  d !! k = d0 !! k.
Proof.
  unfold with_estimate.
  destruct (round2 t); [|done]. destruct (duration_human t); [|done].
  intros [= <-] Hk.
  rewrite !lookup_insert_ne; [done|..]; intros <-; apply Hk; set_solver.
Qed.

Lemma with_estimate_files (id : string) (f t : value) (d0 d : gmap string value) :
  with_estimate id f t d0 = Ok d -> d !! "estimated_files" = Some f.
Proof.
  unfold with_estimate.
  destruct (round2 t); [|done]. destruct (duration_human t); [|done].
  intros [= <-]. rewrite !lookup_insert_ne by done. apply lookup_insert_eq.
Qed.

(** X14. When the answer of [add_code_to_graph] carries a [job_id], it is
    a success payload with that job's id and file estimate, and the
    calls made were exactly: the lister, then estimate, create, update,
    build and submit on the resolved path, then one log line. *)
Theorem add_code_to_graph_job_id_means_submitted (args : add_code_args)
    (s s' : hstate) (d : gmap string value) :
  add_code_to_graph args s = (Ok d, s') ->
  is_Some (d !! "job_id") ->
  exists p q id f t msg,
    arg_path args = Some p
    /\ path_resolve p (hworld s) = Ok q
    /\ d !! "job_id" = Some (VStr id)
    /\ d !! "success" = Some (VBool true)
    /\ d !! "estimated_files" = Some f
    /\ calls s'
       = (calls s ++ [CListRepos]
          ++ job_calls q q
               (match arg_code_is_dependency args with Some b => b | None => false end)
               id f t
          ++ [CDebugLog msg])%list.
Proof.
  unfold add_code_to_graph, add_code_to_graph_body, hquery, debug_log. unfold_M.
  destruct (Path_of_arg (arg_path args)) as [p|e] eqn:Hp; simpl.
  2: { intros [= <- _] [? H]. done. }
  destruct (arg_path args) as [p'|] eqn:Hp'; [|done]. injection Hp as ->.
  destruct (path_resolve p (hworld s)) as [q|e] eqn:Hq; simpl.
  2: { intros [= <- _] [? H]. done. }
  destruct (path_exists q (hworld s)) as [[|]|e]; simpl.
  2: { intros [= <- _] [? H]. done. }
  2: { intros [= <- _] [? H]. done. }
  destruct (indexed_repos s) as [[rs|e] s1] eqn:Hi; simpl.
  2: { intros [= <- _] [? H]. done. }
  apply indexed_repos_inv in Hi as [w' ->].
  destruct (find_indexed_path q rs _) as [[[|]|e] s2] eqn:Hf; simpl.
  1,3: intros [= <- _] [? H]; done.
  apply find_indexed_path_keeps_state in Hf as ->.
  destruct (start_job q q _ _) as [[[[id f] t]|e] s3] eqn:Hs; simpl.
  2: { intros [= <- _] [? H]. done. }
  destruct (start_job_inv _ _ _ _ _ _ Hs) as (id' & f' & t' & l & Hc & _ & _ & Hok).
  destruct (Hok _ eq_refl) as [[= <- <- <-] ->]. simpl in Hc.
  destruct (with_estimate id f t _) as [d'|e] eqn:Hw; simpl.
  2: { intros [= <- _] [? H]. done. }
  intros [= <- <-] _. exists p, q, id, f, t. eexists. split; [done|]. split; [done|].
  split; [|split; [|split]].
  - rewrite (with_estimate_lookup _ _ _ _ _ "job_id" Hw); [done|set_solver].
  - rewrite (with_estimate_lookup _ _ _ _ _ "success" Hw); [done|set_solver].
  - by eapply with_estimate_files.
  - simpl. rewrite Hc. by rewrite <- !app_assoc.
Qed.


(** X15. When [create_job] has returned an id and [update_job] then
    raises, [add_code_to_graph] answers a mapping whose only key is
    [error]: the job exists in the job store, its id is not reported, and
    nothing is submitted. *)
Theorem add_code_to_graph_update_failure_orphans_job (args : add_code_args)
    (p q id : string) (rs : list value) (s s1 : hstate) (est f t : value) (e : exn)
    (w2 w3 w4 : W) :
  let dep := match arg_code_is_dependency args with Some b => b | None => false end in
  arg_path args = Some p ->
  path_resolve p (hworld s) = Ok q ->
  path_exists q (hworld s) = Ok true ->
  indexed_repos s = (Ok rs, s1) ->
  find_indexed_path q rs s1 = (Ok false, s1) ->
  estimate_processing_time q (hworld s1) = (Ok est, w2) ->
  unpack2 est = Ok (f, t) ->
  create_job q dep w2 = (Ok id, w3) ->
  update_job id f t w3 = (Raise e, w4) ->
  let d := error_dict ("Failed to start background processing: " ++ exn_str e) in
  add_code_to_graph args s
  = (Ok d,
     HState w4 (calls s1 ++ [CEstimate q; CCreateJob q dep; CUpdateJob id f t;
                             CDebugLog ("Error creating background job: " ++ exn_str e)]))
  /\ dom d = {[ "error" ]}.
Proof.
  intros dep Hp Hq Hx Hi Hf He Hu Hc Hup d. split.
  - unfold add_code_to_graph, add_code_to_graph_body, start_job, hquery, hcall_rw,
      debug_log. unfold_M.
    rewrite Hp. simpl. rewrite Hq, Hx. simpl. rewrite Hi, Hf. fold dep.
    rewrite He. simpl. rewrite Hu. simpl. rewrite Hc. simpl. rewrite Hup. simpl.
    subst d. do 2 f_equal. by rewrite <- !app_assoc.
  - subst d. unfold error_dict. by rewrite dom_singleton_L.
Qed.

(** X16. When the entries of the listing before some entry resolve to
    other locations and that entry cannot be resolved (no ["path"] key,
    a path that is no string, a failing resolution), [add_code_to_graph]
    answers an error mapping with the text of the exception after the
    lister call alone, whatever follows in the listing: no job is
    created and a duplicate further down is not reported. *)
Theorem add_code_to_graph_unresolvable_entry (args : add_code_args)
    (p q : string) (s : hstate) (d : gmap string value)
    (pre post : list value) (r : value) (e : exn) (w' : W) :
  arg_path args = Some p ->
  path_resolve p (hworld s) = Ok q ->
  path_exists q (hworld s) = Ok true ->
  list_repos_func (hworld s) = (Ok (VDict d), w') ->
  d !! "repositories" = Some (VList (pre ++ r :: post)) ->
  Forall (fun x => exists xq, resolved_path x w' = Ok xq /\ xq <> q) pre ->
  resolved_path r w' = Raise e ->
  add_code_to_graph args s
  = (Ok (error_dict ("Failed to start background processing: " ++ exn_str e)),
     HState w' (calls s ++ [CListRepos;
                            CDebugLog ("Error creating background job: " ++ exn_str e)])).
Proof.
  intros Hp Hq Hx Hl Hd Hpre Hr.
  assert (Hfind : forall st, hworld st = w' ->
            find_indexed_path q (pre ++ r :: post) st = (Raise e, st)).
  { clear Hd. intros st Hst. induction Hpre as [|x pre (xq & Hx1 & Hx2) _ IH]; simpl.
    - unfold hquery. unfold_M. by rewrite Hst, Hr.
    - unfold hquery. unfold_M. rewrite Hst, Hx1.
      destruct (String.eqb_spec xq q); [done|]. apply IH. }
  unfold add_code_to_graph, add_code_to_graph_body, hquery, debug_log. unfold_M.
  rewrite Hp. simpl. rewrite Hq, Hx. simpl.
  pose proof (indexed_repos_listing s d _ w' Hl Hd) as Hi. unfold_M. rewrite Hi.
  rewrite Hfind by done. simpl. by rewrite <- app_assoc.
Qed.

(** X17. When the package is not among the listed ones and the resolver
    answers [None], an empty path, or a path that does not exist,
    [add_package_to_graph] answers an error mapping and stops after the
    resolver: no estimate, no job. *)
Theorem add_package_to_graph_not_located (args : add_package_args)
    (lang : string) (rs : list value) (s s1 : hstate) (located : option string) (w2 : W) :
  arg_language args = Some lang -> lang <> "" ->
  indexed_repos s = (Ok rs, s1) ->
  find_indexed_package (arg_package_name args) rs = Ok false ->
  get_local_package_path (arg_package_name args) lang (hworld s1) = (Ok located, w2) ->
  (located = None \/ located = Some ""
   \/ exists path, located = Some path /\ os_path_exists path w2 = false) ->
  exists msg,
    add_package_to_graph args s
    = (Ok (error_dict msg),
       HState w2 (calls s1 ++ [CLocatePackage (arg_package_name args) lang])).
Proof.
  intros Hl Hne Hi Hf Hloc Hcase.
  unfold add_package_to_graph, add_package_to_graph_body, hcall_rw. unfold_M.
  rewrite Hl. destruct lang as [|c lang]; [done|].
  rewrite Hi, Hf. simpl. rewrite Hloc. simpl.
  destruct Hcase as [-> | [-> | (path & -> & Hex)]]; [by eexists..|].
  destruct path as [|c' path]; [by eexists|]. simpl. rewrite Hex. by eexists.
Qed.


(** *** [index_repository] *)

(** X19. When some listed repository resolves to the location of the
    clone directory, [index_repository] answers
    [{success: False, message: ...}] naming the repository and that
    location, after the lister call alone: [git] is not run and no job
    is created. *)
Theorem index_repository_duplicate_skips_clone (environ : gmap string string)
    (args : index_repository_args) (url q : string) (parsed : parsed_url)
    (s : hstate) (d : gmap string value) (rs : list value) (w' : W) :
  let repo_name := derive_repo_name (url_path parsed) in
  arg_url args = Some url -> url <> "" ->
  urlparse url = Ok parsed ->
  repo_name <> "" ->
  path_resolve (workspace_path repo_name) (hworld s) = Ok q ->
  list_repos_func (hworld s) = (Ok (VDict d), w') ->
  d !! "repositories" = Some (VList rs) ->
  Forall (fun r => exists rq, resolved_path r w' = Ok rq) rs ->
  Exists (fun r => resolved_path r w' = Ok q) rs ->
  index_repository environ args s
  = (Ok (already_indexed ("Repository '" ++ repo_name ++ "' is already indexed at "
                          ++ q ++ ".")),
     HState w' (calls s ++ [CListRepos])).
Proof.
  intros repo_name Hurl Hne Hparse Hname Hres Hl Hd Hall Hex.
  unfold index_repository. rewrite Hurl. destruct url as [|c url]; [done|].
  unfold index_repository_body, hquery. unfold_M. rewrite Hparse. simpl.
  fold repo_name. destruct (String.eqb_spec repo_name ""); [done|].
  rewrite Hres.
  pose proof (indexed_repos_listing s d rs w' Hl Hd) as Hi. unfold_M. rewrite Hi.
  by rewrite (find_indexed_path_found q rs).
Qed.

(** X20. When the path of the URL is empty or made of slashes only, or
    ends in [/.git], no repository name can be derived:
    [index_repository] answers the error "Could not derive repository
    name from URL: ..." and makes no call at all. *)
Theorem index_repository_without_name (environ : gmap string string)
    (args : index_repository_args) (url : string) (parsed : parsed_url) (s : hstate) :
  arg_url args = Some url -> url <> "" ->
  urlparse url = Ok parsed ->
  Forall (eq slash) (chars (url_path parsed))
  \/ (exists dir, url_path parsed = dir ++ "/.git") ->
  index_repository environ args s
  = (Ok (error_dict ("Could not derive repository name from URL: " ++ url)), s).
Proof.
  intros Hurl Hne Hparse Hpath.
  assert (derive_repo_name (url_path parsed) = "") as Hname.
  { destruct Hpath as [H | [dir ->]]; [by apply derive_repo_name_only_slashes|].
    unfold derive_repo_name.
    assert (last_segment (rstrip_slash (dir ++ "/.git")) = ".git") as ->; [|done].
    replace (dir ++ "/.git") with (str ((chars dir ++ chars "/.gi") ++ ["t"%char])).
    2: { rewrite <- app_assoc, <- (str_chars (dir ++ "/.git")). f_equal.
         by rewrite chars_app. }
    rewrite rstrip_slash_no_trailing by done.
    unfold last_segment. rewrite chars_str, <- app_assoc.
    change (chars "/.gi" ++ ["t"%char])%list with (slash :: chars ".git").
    rewrite last_segment_chars_after_slash; [done|].
    apply (bool_decide_eq_true_1 _). vm_compute. reflexivity. }
  unfold index_repository. rewrite Hurl. destruct url as [|c url]; [done|].
  unfold index_repository_body. unfold_M. rewrite Hparse. simpl. by rewrite Hname.
Qed.

Lemma replace_chars_absent (old new l : list ascii) :
  occurs_chars old l = false -> replace_chars old new l = l.
Proof.
  funelim (replace_chars old new l); intros Hocc; [done| |].
  - simpl in Hocc. apply orb_false_iff in Hocc as [Hp _]. congruence.
  - f_equal. apply H. simpl in Hocc. by apply orb_false_iff in Hocc as [_ ?].
Qed.

Lemma py_replace_absent (s old new : string) :
  old <> "" -> py_in old s = false -> py_replace s old new = s.
Proof.
  intros Hne Hin. unfold py_replace, py_in in *.
  destruct (chars old) as [|a l] eqn:E; [by apply chars_nonempty in Hne|].
  rewrite replace_chars_absent by done. apply str_chars.
Qed.

(** X21. When the token does not occur in the error output of [git], the
    text returned for the failed clone is "git clone failed: " followed
    by the trimmed output, unchanged by the redaction: the same text as
    without a token. *)
Theorem clone_failed_message_without_occurrence (err tok : string) :
  tok <> "" ->
  py_in tok err = false ->
  clone_failed_message err (Some tok) = "git clone failed: " ++ py_strip err
  /\ clone_failed_message err (Some tok) = clone_failed_message err None.
Proof.
  intros Hne Hin. unfold clone_failed_message.
  destruct tok as [|c tok]; [done|]. by rewrite py_replace_absent.
Qed.

(** X22. When the answer of [index_repository] carries a [job_id], [git]
    was run on the clone directory and exited with code 0, the payload
    reports the derived repository name, the branch and the resolved
    clone path, and the calls made were exactly: the lister, one log
    line, [git], then estimate, create, update, build and submit, then
    one log line. *)
Theorem index_repository_job_id_means_cloned (environ : gmap string string)
    (args : index_repository_args) (s s' : hstate) (d : gmap string value) :
  let branch := match arg_branch args with Some b => b | None => "main" end in
  let dep := match arg_repo_is_dependency args with Some b => b | None => false end in
  index_repository environ args s = (Ok d, s') ->
  is_Some (d !! "job_id") ->
  exists url parsed q clone_url w1 proc w2 id f t log msg,
    let repo_name := derive_repo_name (url_path parsed) in
    let argv := ["git"; "clone"; "--depth"; "1"; "--branch"; branch; clone_url;
                 workspace_path repo_name] in
    arg_url args = Some url
    /\ urlparse url = Ok parsed
    /\ repo_name <> ""
    /\ path_resolve (workspace_path repo_name) (hworld s) = Ok q
    /\ build_clone_url url parsed (environ !! "GIT_TOKEN") = Ok clone_url
    /\ subprocess_run argv w1 = (Ok proc, w2) /\ returncode proc = 0
    /\ calls s'
       = (calls s ++ [CListRepos; CDebugLog log; CSubprocessRun argv]
          ++ job_calls q q dep id f t ++ [CDebugLog msg])%list
    /\ d !! "success" = Some (VBool true)
    /\ d !! "job_id" = Some (VStr id)
    /\ d !! "repository" = Some (VStr repo_name)
    /\ d !! "clone_path" = Some (VStr q)
    /\ d !! "branch" = Some (VStr branch).
Proof.
  intros branch dep. unfold index_repository. fold branch dep.
  destruct (arg_url args) as [[|c url]|] eqn:Hurl.
  1,3: intros [= <- _] [? H]; done.
  unfold index_repository_body, hquery, hcall_rw, debug_log. unfold_M.
  set (u := String c url) in *.
  destruct (urlparse u) as [parsed|e] eqn:Hparse; simpl.
  2: { destruct (is_TimeoutExpired e); intros [= <- _] [? H]; done. }
  destruct (String.eqb_spec (derive_repo_name (url_path parsed)) "") as [|Hname].
  { intros [= <- _] [? H]; done. }
  destruct (path_resolve _ (hworld s)) as [q|e] eqn:Hres; simpl.
  2: { destruct (is_TimeoutExpired e); intros [= <- _] [? H]; done. }
  destruct (indexed_repos s) as [[rs|e] s1] eqn:Hi; simpl.
  2: { destruct (is_TimeoutExpired e); intros [= <- _] [? H]; done. }
  apply indexed_repos_inv in Hi as [w' ->].
  destruct (find_indexed_path q rs _) as [[[|]|e] s2] eqn:Hf; simpl.
  1: intros [= <- _] [? H]; done.
  2: { destruct (is_TimeoutExpired e); intros [= <- _] [? H]; done. }
  apply find_indexed_path_keeps_state in Hf as ->.
  destruct (build_clone_url u parsed (environ !! "GIT_TOKEN")) as [clone_url|e] eqn:Hc;
    simpl.
  2: { destruct (is_TimeoutExpired e); intros [= <- _] [? H]; done. }
  destruct (subprocess_run _ w') as [[proc|e] w2] eqn:Hrun; simpl.
  2: { destruct (is_TimeoutExpired e); intros [= <- _] [? H]; done. }
  destruct (returncode proc =? 0) eqn:Hrc; simpl.
  2: { intros [= <- _] [? H]; done. }
  apply Z.eqb_eq in Hrc.
  destruct (start_job q q dep _) as [[[[id f] t]|e] s3] eqn:Hs; simpl.
  2: { destruct (is_TimeoutExpired e); intros [= <- _] [? H]; done. }
  destruct (start_job_inv _ _ _ _ _ _ Hs) as (id' & f' & t' & l & Hcalls & _ & _ & Hok).
  destruct (Hok _ eq_refl) as [[= <- <- <-] ->]. simpl in Hcalls.
  destruct (with_estimate id f t _) as [d'|e] eqn:Hw; simpl.
  2: { destruct (is_TimeoutExpired e); intros [= <- _] [? H]; done. }
  intros [= <- <-] _.
  exists u, parsed, q, clone_url, w', proc, w2, id, f, t. eexists _, _.
  split; [done|]. split; [done|]. split; [done|]. split; [done|]. split; [done|].
  split; [exact Hrun|]. split; [done|]. split.
  { simpl. rewrite Hcalls. by rewrite <- !app_assoc. }
  repeat split.
  all: erewrite with_estimate_lookup; [| exact Hw | set_solver]; done.
Qed.

(** X18. When the answer of [add_package_to_graph] carries a [job_id],
    the resolver found a non-empty path that exists, the payload reports
    it as [discovered_path], and the calls made were exactly: the lister,
    the resolver, then estimate, create, update, build and submit on
    that path (as a dependency unless told otherwise), then one log
    line. *)
Theorem add_package_to_graph_job_id_means_located (args : add_package_args)
    (s s' : hstate) (d : gmap string value) :
  let dep := match arg_package_is_dependency args with Some b => b | None => true end in
  add_package_to_graph args s = (Ok d, s') ->
  is_Some (d !! "job_id") ->
  exists lang path w1 w2 id f t msg,
    arg_language args = Some lang
    /\ get_local_package_path (arg_package_name args) lang w1 = (Ok (Some path), w2)
    /\ path <> ""
    /\ os_path_exists path w2 = true
    /\ calls s'
       = (calls s ++ [CListRepos; CLocatePackage (arg_package_name args) lang]
          ++ job_calls path path dep id f t ++ [CDebugLog msg])%list
    /\ d !! "success" = Some (VBool true)
    /\ d !! "job_id" = Some (VStr id)
    /\ d !! "discovered_path" = Some (VStr path).
Proof.
  intros dep. unfold add_package_to_graph. fold dep.
  destruct (arg_language args) as [[|c lang]|] eqn:Hlang.
  1,3: intros [= <- _] [? H]; done.
  unfold add_package_to_graph_body, hcall_rw, debug_log. unfold_M.
  set (lg := String c lang) in *.
  destruct (indexed_repos s) as [[rs|e] s1] eqn:Hi; simpl.
  2: { intros [= <- _] [? H]; done. }
  apply indexed_repos_inv in Hi as [w1 ->].
  destruct (find_indexed_package _ rs) as [[|]|e]; simpl.
  1,3: intros [= <- _] [? H]; done.
  destruct (get_local_package_path _ lg w1) as [[[[|c' path]|]|e] w2] eqn:Hloc; simpl.
  1,3,4: intros [= <- _] [? H]; done.
  set (pp := String c' path) in *.
  destruct (os_path_exists pp w2) eqn:Hex; simpl.
  2: { intros [= <- _] [? H]; done. }
  destruct (start_job pp pp dep _) as [[[[id f] t]|e] s3] eqn:Hs; simpl.
  2: { intros [= <- _] [? H]; done. }
  destruct (start_job_inv _ _ _ _ _ _ Hs) as (id' & f' & t' & l & Hcalls & _ & _ & Hok).
  destruct (Hok _ eq_refl) as [[= <- <- <-] ->]. simpl in Hcalls.
  destruct (with_estimate id f t _) as [d'|e] eqn:Hw; simpl.
  2: { intros [= <- _] [? H]; done. }
  intros [= <- <-] _.
  exists lg, pp, w1, w2, id, f, t. eexists.
  split; [done|]. split; [exact Hloc|]. split; [done|]. split; [done|]. split.
  { simpl. rewrite Hcalls. by rewrite <- !app_assoc. }
  repeat split.
  all: erewrite with_estimate_lookup; [| exact Hw | set_solver]; done.
Qed.

End HandlerExtras.

(** ** Further scenarios *)

Lemma get_driver_reuses_connection_witness :
  let s1 := (get_driver (client := mock_client) demo_state).2 in
  get_driver (client := mock_client) s1 = (Ok (Wrapper (Some "codegraph")), s1)
  /\ construct_calls (trace s1) = [demo_kwargs].
Proof.
  intros s1. split; [|vm_compute; reflexivity].
  apply (get_driver_reuses_connection (client := mock_client) demo_state).
  vm_compute. reflexivity.
Defined.

Lemma get_driver_success_probes_witness :
  let s1 := (get_driver (client := mock_client) demo_state).2 in
  exists h cfg d g,
    host (self demo_state) = Some h /\ config (self demo_state) = Some cfg
    /\ _driver (self s1) = Some d /\ _graph (self s1) = Some g
    /\ Wrapper (Some "codegraph") = Wrapper (Some g)
    /\ trace s1 = (trace demo_state ++ connect_events h cfg)%list
    /\ exists w3 w4, query (FalkorDBClient := mock_client) g "RETURN 1" w3 = (Ok tt, w4)
                     /\ world s1 = w4.
Proof.
  intros s1.
  apply (get_driver_success_probes (client := mock_client) demo_state s1);
    vm_compute; reflexivity.
Defined.

Lemma get_driver_never_raises_ImportError_witness :
  let s := State (Instance_ (Some "simple.host") (Some demo_settings) true None None)
                 tt [] in
  exists s',
    get_driver (client := mock_client_missing) s
    = (Raise (Exn ValueError "FalkorDB client missing."), s')
    /\ _driver (self s') = None.
Proof.
  intros s.
  set (r := get_driver (client := mock_client_missing) s).
  assert (r = (Raise (Exn ValueError "FalkorDB client missing."), r.2)) as Hr
    by (vm_compute; reflexivity).
  destruct (get_driver_never_raises_ImportError (client := mock_client_missing)
              s r.2 _ Hr) as [_ _].
  exists r.2. split; [exact Hr | vm_compute; reflexivity].
Defined.

Lemma get_driver_reconnects_after_close_witness :
  let s := State demo_connected (MockServer 0 0) [EConstruct demo_kwargs] in
  let s0 := (close_driver s).2 in
  let s1 := (get_driver (client := mock_client) s0).2 in
  is_connected (client := mock_client) s0 = (Ok false, s0)
  /\ construct_calls (trace s1) = [demo_kwargs; demo_kwargs].
Proof.
  intros s s0 s1.
  destruct (get_driver_reconnects_after_close (client := mock_client)
              s s0 s1 "simple.host" demo_settings (Wrapper (Some "codegraph")))
    as (_ & _ & H3 & H4 & _); try (vm_compute; reflexivity).
  split; [exact H3 | exact H4].
Defined.

Lemma validate_config_implies_construction_witness :
  exists me cls',
    FalkorDBRemoteManager (Driver := unit) (Graph := unit)
      {[ "FALKORDB_HOST" := "myhost" ]} (ClassState None 0) = (Ok me, cls')
    /\ host me = Some "myhost".
Proof.
  destruct (validate_config_implies_construction (Driver := unit) (Graph := unit)
              {[ "FALKORDB_HOST" := "myhost" ]} 0)
    as (me & cls' & h & cfg & H1 & H2 & H3 & _); [vm_compute; reflexivity|].
  exists me, cls'. split; [exact H1|].
  rewrite H3. vm_compute in H2. by injection H2 as <-.
Defined.

Lemma construction_accepts_any_integer_port_witness :
  let env : gmap string string :=
    <["FALKORDB_PORT" := "70000"]> {[ "FALKORDB_HOST" := "myhost" ]} in
  (validate_config env).1 = false
  /\ exists me cls' cfg,
       FalkorDBRemoteManager (Driver := unit) (Graph := unit) env (ClassState None 0)
       = (Ok me, cls')
       /\ config me = Some cfg /\ port cfg = 70000
       /\ get_driver_kwargs "myhost" cfg !! "port" = Some (VInt 70000).
Proof.
  intros env.
  apply (construction_accepts_any_integer_port (Driver := unit) (Graph := unit)
           env "myhost" 70000 0); try (vm_compute; reflexivity); [done | lia].
Defined.

Lemma test_connection_leaves_cache_witness :
  let s := State demo_connected (MockServer 0 1) [] in
  let r := test_connection (client := mock_client) {[ "FALKORDB_HOST" := "other.host" ]} s in
  r.1 = Ok (false, Some "Connection failed: connection refused")
  /\ self r.2 = demo_connected.
Proof.
  intros s r. split; [vm_compute; reflexivity|].
  apply (test_connection_leaves_cache (client := mock_client)
           {[ "FALKORDB_HOST" := "other.host" ]} s r.2 r.1).
  vm_compute. reflexivity.
Defined.

Lemma test_connection_outcomes_witness :
  exists s',
    test_connection (client := mock_client) {[ "FALKORDB_HOST" := "other.host" ]}
      (State demo_manager (MockServer 0 0) [])
    = (Ok (true, None), s').
Proof.
  destruct (test_connection_outcomes (client := mock_client)
              {[ "FALKORDB_HOST" := "other.host" ]}
              (State demo_manager (MockServer 0 0) []) "other.host" 6379 (MockServer 0 0))
    as (b & msg & s' & Hr & Hb & Hm & _); try (vm_compute; reflexivity); [done|].
  assert (b = true) as ->.
  { apply Hb. eexists _, _, _, _, _. repeat split; vm_compute; reflexivity. }
  rewrite (Hm eq_refl) in Hr. by exists s'.
Defined.

Lemma test_connection_bad_port_raises_witness :
  let env : gmap string string :=
    <["FALKORDB_PORT" := "abc"]> {[ "FALKORDB_HOST" := "other.host" ]} in
  test_connection (client := mock_client) env (State demo_manager (MockServer 0 0) [])
  = (Raise (Exn ValueError "invalid literal for int() with base 10: 'abc'"),
     State demo_manager (MockServer 0 0) [EImport])
  /\ validate_config env
     = (false, Some "FALKORDB_PORT must be a number, got 'abc'.").
Proof.
  intros env.
  destruct (test_connection_bad_port_raises (client := mock_client) env
              (State demo_manager (MockServer 0 0) []) "other.host"
              (int_ValueError "abc") (MockServer 0 0))
    as (H1 & _ & _ & H3); try (vm_compute; reflexivity); [done|].
  split; [exact H1 | exact H3].
Defined.

(** The same with a port text that [str.strip] would clean but [int]
    refuses: the separator FS before the digits. *)
Example test_connection_separator_port :
  test_connection (client := mock_client)
    (<["FALKORDB_PORT" := String (ascii_of_nat 28) "80"]>
       {[ "FALKORDB_HOST" := "other.host" ]})
    (State demo_manager (MockServer 0 0) [])
  = (Raise (Exn ValueError
              ("invalid literal for int() with base 10: '" ++ "\x1c80" ++ "'")),
     State demo_manager (MockServer 0 0) [EImport]).
Proof. vm_compute. reflexivity. Qed.

Lemma derive_repo_name_of_git_url_witness :
  derive_repo_name "/org/myrepo.git" = "myrepo"
  /\ derive_repo_name "/org/myrepo" = "myrepo"
  /\ derive_repo_name "/org/myrepo/" = derive_repo_name "/org/myrepo".
Proof.
  destruct (derive_repo_name_of_git_url "/org" "myrepo") as (H1 & H2 & H3).
  - apply (bool_decide_eq_true_1 _). vm_compute. reflexivity.
  - done.
  - split; [exact H1|]. split; [apply H2; vm_compute; reflexivity | exact H3].
Defined.

Lemma start_job_order_witness :
  exists s',
    start_job (collab := demo_collab) "/home/dev/proj" "/home/dev/proj" false (HState tt [])
    = (Ok ("job-1", VInt 10, VInt 90), s')
    /\ calls s' = job_calls "/home/dev/proj" "/home/dev/proj" false "job-1" (VInt 10) (VInt 90).
Proof.
  set (r := start_job (collab := demo_collab) "/home/dev/proj" "/home/dev/proj" false
              (HState tt [])).
  assert (r = (Ok ("job-1", VInt 10, VInt 90), r.2)) as Hr by reflexivity.
  destruct (start_job_order (collab := demo_collab) _ _ _ _ _ _ Hr)
    as (id & f & t & l & Hc & _ & _ & Hok).
  destruct (Hok _ eq_refl) as [[= <- <- <-] ->].
  exists r.2. split; [exact Hr | exact Hc].
Defined.

Lemma add_code_to_graph_job_id_witness :
  let s' := HState tt
              ([CListRepos]
               ++ job_calls "/home/dev/proj" "/home/dev/proj" false "job-1" (VInt 10) (VInt 90)
               ++ [CDebugLog "Started background job job-1 for path: /home/dev/proj, is_dependency: False"]) in
  add_code_to_graph (collab := demo_collab) (platform := demo_platform true git_ok)
    (AddCodeArgs (Some "./proj") None) (HState tt [])
  = (Ok demo_code_payload, s')
  /\ exists id f t msg,
       demo_code_payload !! "job_id" = Some (VStr id)
       /\ calls s'
          = ([CListRepos] ++ job_calls "/home/dev/proj" "/home/dev/proj" false id f t
             ++ [CDebugLog msg])%list.
Proof.
  intros s'.
  assert (add_code_to_graph (collab := demo_collab) (platform := demo_platform true git_ok)
            (AddCodeArgs (Some "./proj") None) (HState tt [])
          = (Ok demo_code_payload, s')) as Hr by reflexivity.
  split; [exact Hr|].
  destruct (add_code_to_graph_job_id_means_submitted
              (collab := demo_collab) (platform := demo_platform true git_ok)
              _ _ _ _ Hr)
    as (p & q & id & f & t & msg & Hp & Hq & Hid & _ & _ & Hc).
  { exists (VStr "job-1"). reflexivity. }
  injection Hp as <-. vm_compute in Hq. injection Hq as <-.
  exists id, f, t, msg. split; [exact Hid | exact Hc].
Defined.

Lemma add_code_to_graph_update_failure_witness :
  add_code_to_graph (collab := mock_collab_update_fails)
    (platform := demo_platform true git_ok)
    (AddCodeArgs (Some "./proj") None) (HState tt [])
  = (Ok (error_dict "Failed to start background processing: job store unavailable"),
     HState tt [CListRepos; CEstimate "/home/dev/proj";
                CCreateJob "/home/dev/proj" false;
                CUpdateJob "job-1" (VInt 10) (VInt 90);
                CDebugLog "Error creating background job: job store unavailable"]).
Proof.
  apply (add_code_to_graph_update_failure_orphans_job
           (collab := mock_collab_update_fails) (platform := demo_platform true git_ok)
           (AddCodeArgs (Some "./proj") None) "./proj" "/home/dev/proj" "job-1" []
           (HState tt []) (HState tt [CListRepos]) (VList [VInt 10; VInt 90])
           (VInt 10) (VInt 90) (Exn RuntimeError "job store unavailable") tt tt tt);
    vm_compute; reflexivity.
Defined.

Lemma add_code_to_graph_unresolvable_entry_witness :
  add_code_to_graph
    (collab := mock_collab (mock_listing [VDict ∅; mock_record "./proj" "proj" false]) None)
    (platform := demo_platform true git_ok)
    (AddCodeArgs (Some "./proj") None) (HState tt [])
  = (Ok (error_dict "Failed to start background processing: 'path'"),
     HState tt [CListRepos; CDebugLog "Error creating background job: 'path'"]).
Proof.
  apply (add_code_to_graph_unresolvable_entry
           (collab := mock_collab (mock_listing [VDict ∅; mock_record "./proj" "proj" false]) None)
           (platform := demo_platform true git_ok)
           (AddCodeArgs (Some "./proj") None) "./proj" "/home/dev/proj" (HState tt [])
           {[ "repositories" := VList [VDict ∅; mock_record "./proj" "proj" false] ]}
           [] [mock_record "./proj" "proj" false] (VDict ∅) (Exn KeyError "'path'") tt);
    try (vm_compute; reflexivity).
  constructor.
Defined.

Lemma add_package_to_graph_not_located_witness :
  exists msg,
    add_package_to_graph (collab := demo_collab) (platform := demo_platform true git_ok)
      (AddPackageArgs (Some "left-pad") (Some "javascript") None) (HState tt [])
    = (Ok (error_dict msg),
       HState tt [CListRepos; CLocatePackage (Some "left-pad") "javascript"]).
Proof.
  apply (add_package_to_graph_not_located
           (collab := demo_collab) (platform := demo_platform true git_ok)
           (AddPackageArgs (Some "left-pad") (Some "javascript") None) "javascript" []
           (HState tt []) (HState tt [CListRepos]) None tt);
    try (vm_compute; reflexivity); [done | by left].
Defined.

Lemma add_package_to_graph_job_id_witness :
  let s' := HState tt
              ([CListRepos; CLocatePackage (Some "requests") "python"]
               ++ job_calls requests_path requests_path true "job-1" (VInt 10) (VInt 90)
               ++ [CDebugLog "Started background job job-1 for package: requests at /usr/lib/python3/site-packages/requests, is_dependency: True"]) in
  add_package_to_graph (collab := mock_collab (mock_listing []) (Some requests_path))
    (platform := demo_platform true git_ok)
    (AddPackageArgs (Some "requests") (Some "python") None) (HState tt [])
  = (Ok demo_package_payload, s')
  /\ exists path id f t msg,
       demo_package_payload !! "discovered_path" = Some (VStr path)
       /\ calls s'
          = ([CListRepos; CLocatePackage (Some "requests") "python"]
             ++ job_calls path path true id f t ++ [CDebugLog msg])%list.
Proof.
  intros s'.
  assert (add_package_to_graph (collab := mock_collab (mock_listing []) (Some requests_path))
            (platform := demo_platform true git_ok)
            (AddPackageArgs (Some "requests") (Some "python") None) (HState tt [])
          = (Ok demo_package_payload, s')) as Hr by reflexivity.
  split; [exact Hr|].
  destruct (add_package_to_graph_job_id_means_located
              (collab := mock_collab (mock_listing []) (Some requests_path))
              (platform := demo_platform true git_ok) _ _ _ _ Hr)
    as (lang & path & w1 & w2 & id & f & t & msg & Hl & _ & _ & _ & Hc & _ & _ & Hd).
  { exists (VStr "job-1"). reflexivity. }
  injection Hl as <-.
  exists path, id, f, t, msg. split; [exact Hd | exact Hc].
Defined.

Lemma index_repository_duplicate_skips_clone_witness :
  index_repository
    (collab := mock_collab (mock_listing [mock_record "/workspace/myrepo" "myrepo" false]) None)
    (platform := demo_platform true git_ok)
    ∅ demo_clone_args (HState tt [])
  = (Ok (already_indexed "Repository 'myrepo' is already indexed at /workspace/myrepo."),
     HState tt [CListRepos]).
Proof.
  apply (index_repository_duplicate_skips_clone
           (collab := mock_collab (mock_listing [mock_record "/workspace/myrepo" "myrepo" false]) None)
           (platform := demo_platform true git_ok)
           ∅ demo_clone_args demo_url "/workspace/myrepo"
           (ParsedUrl "https" (Some "example.com") (Ok None) "/org/myrepo.git")
           (HState tt [])
           {[ "repositories" := VList [mock_record "/workspace/myrepo" "myrepo" false] ]}
           [mock_record "/workspace/myrepo" "myrepo" false] tt);
    try (vm_compute; reflexivity); try discriminate.
  - repeat constructor. eexists. vm_compute. reflexivity.
  - apply Exists_cons_hd. vm_compute. reflexivity.
Defined.

Lemma index_repository_without_name_witness :
  index_repository (collab := demo_collab) (platform := mock_platform_parsed demo_bare_url)
    ∅ (IndexRepositoryArgs (Some "https://example.com/") None None) (HState tt [])
  = (Ok (error_dict "Could not derive repository name from URL: https://example.com/"),
     HState tt []).
Proof.
  apply (index_repository_without_name
           (collab := demo_collab) (platform := mock_platform_parsed demo_bare_url)
           ∅ _ "https://example.com/" demo_bare_url); try done.
  left. repeat constructor.
Defined.

Lemma clone_failed_message_without_occurrence_witness :
  clone_failed_message "fatal: repository not found
" (Some demo_token)
  = "git clone failed: fatal: repository not found".
Proof.
  destruct (clone_failed_message_without_occurrence "fatal: repository not found
" demo_token) as [H _]; [done | vm_compute; reflexivity |].
  rewrite H. vm_compute. reflexivity.
Defined.

Lemma index_repository_job_id_witness :
  let s' := HState tt
              ([CListRepos; demo_clone_log; CSubprocessRun demo_argv]
               ++ job_calls "/workspace/myrepo" "/workspace/myrepo" false "job-1"
                    (VInt 10) (VInt 90)
               ++ [CDebugLog "Started background job job-1 for cloned repo: myrepo at /workspace/myrepo"]) in
  index_repository (collab := demo_collab) (platform := demo_platform true git_ok)
    {[ "GIT_TOKEN" := demo_token ]} demo_clone_args (HState tt [])
  = (Ok demo_repo_payload, s')
  /\ exists proc w1 w2,
       subprocess_run (Platform := demo_platform true git_ok) demo_argv w1 = (Ok proc, w2)
       /\ returncode proc = 0.
Proof.
  intros s'.
  assert (index_repository (collab := demo_collab) (platform := demo_platform true git_ok)
            {[ "GIT_TOKEN" := demo_token ]} demo_clone_args (HState tt [])
          = (Ok demo_repo_payload, s')) as Hr by reflexivity.
  split; [exact Hr|].
  destruct (index_repository_job_id_means_cloned
              (collab := demo_collab) (platform := demo_platform true git_ok) _ _ _ _ _ Hr)
    as (url & parsed & q & cu & w1 & proc & w2 & id & f & t & log & msg
        & _ & _ & _ & _ & _ & Hrun & Hrc & _).
  { exists (VStr "job-1"). reflexivity. }
  exists proc, w1, w2. split; [|exact Hrc].
  vm_compute in Hrun. vm_compute. exact Hrun.
Defined.
